(** * fidesctl.core.evaluate: policy evaluation

    A shallow embedding of [src/fidesctl/src/fidesctl/core/evaluate.py]:
    the comparator [compare_rule_to_declaration], the rule evaluator
    [execute_evaluation], the policy resolver [get_evaluation_policies]
    (with [get_all_server_policies] and [validate_policies_exist]) and the
    orchestrator [evaluate].

    Python exceptions are an explicit result type, console output and
    calls to the server are events appended to a trace. *)

From Stdlib Require Import List String Ascii Bool Arith Lia.
Import ListNotations.
Open Scope string_scope.

(** ** Python values and builtins *)

Definition FidesKey := string.

(** The exceptions the module can raise: [EvaluationError] (raised by the
    module itself) and [KeyError] (a failed dict subscript). *)
Inductive Exception : Type :=
| EvaluationError
| KeyError.

Inductive Result (A : Type) : Type :=
| Ok (a : A)
| Raise (e : Exception).
Arguments Ok {A} a.
Arguments Raise {A} e.

(** [x in xs] on a list of strings: the first element equal to [x] decides. *)
Fixpoint py_in (x : FidesKey) (xs : list FidesKey) : bool :=
  match xs with
  | [] => false
  | y :: ys => if String.eqb x y then true else py_in x ys
  end.

(** The builtins [any] and [all]. *)
Fixpoint any (xs : list bool) : bool :=
  match xs with
  | [] => false
  | x :: r => if x then true else any r
  end.

Fixpoint all (xs : list bool) : bool :=
  match xs with
  | [] => true
  | x :: r => if x then all r else false
  end.

(** Truthiness of a string and of a list. ([None] is false; an object of a
    model class has neither [__bool__] nor [__len__], so it is true: the
    tests on a looked-up policy are matches on [option].) *)
Definition truthy_str (s : string) : bool :=
  match s with EmptyString => false | String _ _ => true end.

Definition truthy_list {A} (l : list A) : bool :=
  match l with [] => false | _ :: _ => true end.

(** An argument annotated [str] that the caller may leave out: [None] or a
    string. [None] and the empty string are both false. *)
Definition truthy_key (k : option string) : bool :=
  match k with None => false | Some s => truthy_str s end.

(** ** The data model (fideslang.models, as far as evaluate.py reads it) *)

Inductive InclusionEnum : Type := ANY | ALL | NONE.

Definition InclusionEnum_eqb (a b : InclusionEnum) : bool :=
  match a, b with
  | ANY, ANY | ALL, ALL | NONE, NONE => true
  | _, _ => false
  end.

(** Modelled from the spec: the declaration of [StatusEnum] (fideslang.models)
    is not among the sources. The spec gives an Evaluation a status PASS or
    FAIL; evaluate.py compares the status with the string "FAIL", so the
    members carry their names as string values. *)
Inductive StatusEnum : Type := FAIL | PASS.

Definition StatusEnum_value (s : StatusEnum) : string :=
  match s with FAIL => "FAIL" | PASS => "PASS" end.

Module PrivacyRule.
Record t : Type := mk { values : list FidesKey; inclusion : InclusionEnum }.
End PrivacyRule.

Module PolicyRule.
Record t : Type := mk {
  name : string;
  data_categories : PrivacyRule.t;
  data_uses : PrivacyRule.t;
  data_subjects : PrivacyRule.t;
  data_qualifier : FidesKey
}.
End PolicyRule.

Module Policy.
Record t : Type := mk { fides_key : FidesKey; rules : list PolicyRule.t }.
End Policy.

Module PrivacyDeclaration.
Record t : Type := mk {
  name : string;
  data_categories : list FidesKey;
  data_use : FidesKey;
  data_subjects : list FidesKey;
  data_qualifier : FidesKey
}.
End PrivacyDeclaration.

Module System.
Record t : Type := mk {
  fides_key : FidesKey;
  privacy_declarations : list PrivacyDeclaration.t
}.
End System.

Module Taxonomy.
Record t : Type := mk { policy : list Policy.t; system : list System.t }.

(** [taxonomy.policy = ps] *)
Definition set_policy (tx : t) (ps : list Policy.t) : t :=
  mk ps (system tx).
End Taxonomy.

Module Evaluation.
(** Modelled from the spec: the declaration of [Evaluation]
    (fideslang.models) is not among the sources. The spec gives it a status,
    a list of violation detail strings and an optional message;
    [execute_evaluation] builds it without a message. *)
Record t : Type := mk {
  status : StatusEnum;
  details : list string;
  message : option string
}.

(** [evaluation.message = m] *)
Definition set_message (e : t) (m : string) : t :=
  mk (status e) (details e) (Some m).
End Evaluation.

(** ** The comparator *)

(** A dict from inclusion modes to functions, and its subscript. *)
Definition inclusion_map : list (InclusionEnum * (list bool -> bool)) :=
  [ (ANY, any);
    (ALL, all);
    (NONE, fun x => negb (any x)) ].

Fixpoint dict_getitem {V} (d : list (InclusionEnum * V)) (k : InclusionEnum)
  : Result V :=
  match d with
  | [] => Raise KeyError
  | (k', v) :: r => if InclusionEnum_eqb k' k then Ok v else dict_getitem r k
  end.

Definition compare_rule_to_declaration
    (rule_types declaration_types : list FidesKey)
    (rule_inclusion : InclusionEnum) : Result bool :=
  let matching_data_categories :=
    map (fun data_category => py_in data_category rule_types)
        declaration_types in
  match dict_getitem inclusion_map rule_inclusion with
  | Ok f => Ok (f matching_data_categories)
  | Raise e => Raise e
  end.

(** ** The rule evaluator *)

Definition bindR {A B} (r : Result A) (k : A -> Result B) : Result B :=
  match r with
  | Ok a => k a
  | Raise e => Raise e
  end.

Notation "x <-- c ;; k" := (bindR c (fun x => k))
  (at level 61, c at next level, right associativity).

(** A [for] loop over a list that updates a local variable. *)
Fixpoint for_each {A S} (l : list A) (body : A -> S -> Result S) (s : S)
  : Result S :=
  match l with
  | [] => Ok s
  | a :: r => bindR (body a s) (for_each r body)
  end.

Definition execute_evaluation (taxonomy : Taxonomy.t) : Result Evaluation.t :=
  let evaluation_detail_list : list string := [] in
  evaluation_detail_list <--
    for_each (Taxonomy.policy taxonomy) (fun policy =>
    for_each (Policy.rules policy) (fun rule =>
    for_each (Taxonomy.system taxonomy) (fun system =>
    for_each (System.privacy_declarations system)
      (fun declaration evaluation_detail_list =>
        data_category_result <--
          compare_rule_to_declaration
            (PrivacyRule.values (PolicyRule.data_categories rule))
            (PrivacyDeclaration.data_categories declaration)
            (PrivacyRule.inclusion (PolicyRule.data_categories rule)) ;;
        data_use_result <--
          compare_rule_to_declaration
            (PrivacyRule.values (PolicyRule.data_uses rule))
            [PrivacyDeclaration.data_use declaration]
            (PrivacyRule.inclusion (PolicyRule.data_uses rule)) ;;
        data_subject_result <--
          compare_rule_to_declaration
            (PrivacyRule.values (PolicyRule.data_subjects rule))
            (PrivacyDeclaration.data_subjects declaration)
            (PrivacyRule.inclusion (PolicyRule.data_subjects rule)) ;;
        let data_qualifier_result :=
          String.eqb (PrivacyDeclaration.data_qualifier declaration)
                     (PolicyRule.data_qualifier rule) in
        if all [ data_category_result;
                 data_subject_result;
                 data_use_result;
                 data_qualifier_result ]
        then
          Ok (evaluation_detail_list ++
              [ ("Declaration (" ++ PrivacyDeclaration.name declaration ++
                 ") of System (" ++ System.fides_key system ++
                 ") failed Rule (" ++ PolicyRule.name rule ++
                 ") from Policy (" ++ Policy.fides_key policy ++
                 ")")%string ])%list
        else Ok evaluation_detail_list))))
      evaluation_detail_list ;;
  let status_enum :=
    if Nat.ltb 0 (List.length evaluation_detail_list) then FAIL else PASS in
  Ok (Evaluation.mk status_enum evaluation_detail_list None).

(** ** Console output and server calls *)

Definition Url := string.
Definition Headers := list (string * string).

Inductive Color : Type := Green | Red.

Inductive Event : Type :=
| ApiGet (resource_type : string) (resource_key : FidesKey)
| ApiLs (resource_type : string)
| ApiGetMany (resource_type : string) (existing_keys : list FidesKey)
| ApiHydrate (missing_resource_keys : list FidesKey)
| Echo (color : Color) (text : string)
| Print (text : string)
| PrettyEcho (dict : Evaluation.t) (color : Color).

(** What the module imports from the rest of fidesctl and from fideslang
    and only calls: the manifest parser, the server behind api and
    api_helpers, and the reference resolver. [api_ls] is the list of the
    "fides_key" entries of the listing that [handle_cli_response] lets
    through; a server that answers is assumed. *)
Record Collaborators : Type := {
  parse : string -> Taxonomy.t;
  api_ls : Url -> string -> Headers -> list FidesKey;
  get_server_resource : Url -> string -> FidesKey -> Headers -> option Policy.t;
  get_server_resources :
    Url -> string -> Headers -> list FidesKey -> list Policy.t;
  get_referenced_missing_keys : Taxonomy.t -> list FidesKey;
  hydrate_missing_resources :
    Url -> Headers -> list FidesKey -> Taxonomy.t -> Taxonomy.t
}.

(** A computation reads and extends the trace of events and ends with a
    value or an exception. *)
Definition IO (A : Type) : Type := list Event -> Result A * list Event.

Definition ret {A} (a : A) : IO A := fun tr => (Ok a, tr).

Definition bind {A B} (m : IO A) (k : A -> IO B) : IO B :=
  fun tr =>
    match m tr with
    | (Ok a, tr') => k a tr'
    | (Raise e, tr') => (Raise e, tr')
    end.

Definition raise {A} (e : Exception) : IO A := fun tr => (Raise e, tr).

Definition emit (ev : Event) : IO unit :=
  fun tr => (Ok tt, (tr ++ [ev])%list).

Definition lift {A} (r : Result A) : IO A := fun tr => (r, tr).

Notation "x <- c ;; k" := (bind c (fun x => k))
  (at level 61, c at next level, right associativity).
Notation "c ;;; k" := (bind c (fun _ => k))
  (at level 61, right associativity).

Definition echo_green (text : string) : IO unit := emit (Echo Green text).
Definition echo_red (text : string) : IO unit := emit (Echo Red text).
Definition print (text : string) : IO unit := emit (Print text).
Definition pretty_echo (dict : Evaluation.t) (color : Color) : IO unit :=
  emit (PrettyEcho dict color).

Definition nl : string := String (ascii_of_nat 10) EmptyString.

(** [sep.join(l)] and [s * n]. *)
Definition join (sep : string) (l : list string) : string :=
  String.concat sep l.

Fixpoint str_mul (s : string) (n : nat) : string :=
  match n with
  | O => ""
  | S m => s ++ str_mul s m
  end.

(** ** The policy resolver and the orchestrator *)

Section Workflow.

Variable c : Collaborators.

Definition call_get_server_resource
    (url : Url) (resource_type : string) (resource_key : FidesKey)
    (headers : Headers) : IO (option Policy.t) :=
  emit (ApiGet resource_type resource_key) ;;;
  ret (get_server_resource c url resource_type resource_key headers).

Definition call_api_ls (url : Url) (resource_type : string)
    (headers : Headers) : IO (list FidesKey) :=
  emit (ApiLs resource_type) ;;;
  ret (api_ls c url resource_type headers).

Definition call_get_server_resources
    (url : Url) (resource_type : string) (headers : Headers)
    (existing_keys : list FidesKey) : IO (list Policy.t) :=
  emit (ApiGetMany resource_type existing_keys) ;;;
  ret (get_server_resources c url resource_type headers existing_keys).

Definition call_hydrate_missing_resources
    (url : Url) (headers : Headers) (missing_resource_keys : list FidesKey)
    (dehydrated_taxonomy : Taxonomy.t) : IO Taxonomy.t :=
  emit (ApiHydrate missing_resource_keys) ;;;
  ret (hydrate_missing_resources c url headers missing_resource_keys
         dehydrated_taxonomy).

Definition get_all_server_policies
    (url : Url) (headers : Headers) (exclude : option (list FidesKey))
  : IO (list Policy.t) :=
  let exclude :=
    match exclude with
    | Some ((_ :: _) as l) => l
    | _ => []
    end in
  ls_response <- call_api_ls url "policy" headers ;;
  let policy_keys :=
    filter (fun resource => negb (py_in resource exclude)) ls_response in
  policy_list <- call_get_server_resources url "policy" headers policy_keys ;;
  ret policy_list.

Definition get_evaluation_policies
    (local_policies : list Policy.t) (evaluate_fides_key : option string)
    (url : Url) (headers : Headers) : IO (list Policy.t) :=
  match evaluate_fides_key with
  | Some ((String _ _) as evaluate_fides_key) =>
      let local_policy_found :=
        find (fun policy =>
                String.eqb (Policy.fides_key policy) evaluate_fides_key)
             local_policies in
      match local_policy_found with
      | Some local_policy_found => ret [local_policy_found]
      | None =>
          server_policy_found <-
            call_get_server_resource url "policy" evaluate_fides_key
              headers ;;
          ret (match server_policy_found with
               | Some server_policy_found => [server_policy_found]
               | None => []
               end)
      end
  | _ =>
      let local_policy_keys :=
        match local_policies with
        | _ :: _ => Some (map Policy.fides_key local_policies)
        | [] => None
        end in
      server_policies <-
        get_all_server_policies url headers local_policy_keys ;;
      let all_policies := (local_policies ++ server_policies)%list in
      ret all_policies
  end.

Definition validate_policies_exist
    (policies : list Policy.t) (evaluate_fides_key : option string)
  : IO unit :=
  if negb (truthy_list policies) then
    echo_red
      (match evaluate_fides_key with
       | Some ((String _ _) as evaluate_fides_key) =>
           "Policy " ++ evaluate_fides_key ++ " could not be found"
       | _ => "No Policies found to evaluate"
       end) ;;;
    raise EvaluationError
  else ret tt.

Definition evaluate
    (url : Url) (manifests_dir : string) (fides_key : option string)
    (headers : Headers) (message : string) (dry : bool)
  : IO Evaluation.t :=
  let taxonomy := parse c manifests_dir in
  policies <-
    get_evaluation_policies (Taxonomy.policy taxonomy) fides_key url
      headers ;;
  let taxonomy := Taxonomy.set_policy taxonomy policies in
  validate_policies_exist (Taxonomy.policy taxonomy) fides_key ;;;
  echo_green
    ("Evaluating the following policies:" ++ nl ++
     join nl (map Policy.fides_key (Taxonomy.policy taxonomy))) ;;;
  print (str_mul "-" 10) ;;;
  echo_green "Checking for missing resources..." ;;;
  let missing_resource_keys := get_referenced_missing_keys c taxonomy in
  taxonomy <-
    (if truthy_list missing_resource_keys then
       echo_green
         ("Fetching the following missing resources from the server:" ++
          nl ++ join nl missing_resource_keys) ;;;
       echo_green "Hydrating the taxonomy..." ;;;
       call_hydrate_missing_resources url headers missing_resource_keys
         taxonomy
     else ret taxonomy) ;;
  echo_green "Executing evaluations..." ;;;
  evaluation <- lift (execute_evaluation taxonomy) ;;
  let evaluation := Evaluation.set_message evaluation message in
  if String.eqb (StatusEnum_value (Evaluation.status evaluation)) "FAIL"
  then
    pretty_echo evaluation Red ;;;
    raise EvaluationError
  else
    (if negb dry then
       echo_green "Sending the evaluation results to the server..."
     else ret tt) ;;;
    echo_green "Evaluation passed!" ;;;
    ret evaluation.

End Workflow.

(** ** Vocabulary of the specification *)

(** The quadruples in the order the four nested loops visit them. *)
Definition Quadruple : Type :=
  (Policy.t * PolicyRule.t * System.t * PrivacyDeclaration.t)%type.

Definition quadruples (taxonomy : Taxonomy.t) : list Quadruple :=
  flat_map (fun policy =>
    flat_map (fun rule =>
      flat_map (fun system =>
        map (fun declaration => (policy, rule, system, declaration))
            (System.privacy_declarations system))
        (Taxonomy.system taxonomy))
      (Policy.rules policy))
    (Taxonomy.policy taxonomy).

(** A comparison holds when it returns [True]. *)
Definition holds (r : Result bool) : bool :=
  match r with
  | Ok b => b
  | Raise _ => false
  end.

(** The four dimension checks of one quadruple. *)
Definition category_check (rule : PolicyRule.t)
    (declaration : PrivacyDeclaration.t) : bool :=
  holds (compare_rule_to_declaration
           (PrivacyRule.values (PolicyRule.data_categories rule))
           (PrivacyDeclaration.data_categories declaration)
           (PrivacyRule.inclusion (PolicyRule.data_categories rule))).

Definition use_check (rule : PolicyRule.t)
    (declaration : PrivacyDeclaration.t) : bool :=
  holds (compare_rule_to_declaration
           (PrivacyRule.values (PolicyRule.data_uses rule))
           [PrivacyDeclaration.data_use declaration]
           (PrivacyRule.inclusion (PolicyRule.data_uses rule))).

Definition subject_check (rule : PolicyRule.t)
    (declaration : PrivacyDeclaration.t) : bool :=
  holds (compare_rule_to_declaration
           (PrivacyRule.values (PolicyRule.data_subjects rule))
           (PrivacyDeclaration.data_subjects declaration)
           (PrivacyRule.inclusion (PolicyRule.data_subjects rule))).

Definition qualifier_check (rule : PolicyRule.t)
    (declaration : PrivacyDeclaration.t) : bool :=
  String.eqb (PrivacyDeclaration.data_qualifier declaration)
             (PolicyRule.data_qualifier rule).

Definition violation (q : Quadruple) : bool :=
  let '(_, rule, _, declaration) := q in
  category_check rule declaration && use_check rule declaration &&
  subject_check rule declaration && qualifier_check rule declaration.

Definition detail (q : Quadruple) : string :=
  let '(policy, rule, system, declaration) := q in
  "Declaration (" ++ PrivacyDeclaration.name declaration ++
  ") of System (" ++ System.fides_key system ++
  ") failed Rule (" ++ PolicyRule.name rule ++
  ") from Policy (" ++ Policy.fides_key policy ++ ")".

(** The violation details of a taxonomy, as the specification words them:
    one string for each scanned quadruple whose four checks hold. *)
Definition violation_details (taxonomy : Taxonomy.t) : list string :=
  map detail (filter violation (quadruples taxonomy)).

(** [sub] occurs in [s]. *)
Definition contains (s sub : string) : Prop :=
  exists pre post, s = pre ++ sub ++ post.

(** Events that are requests to the server. *)
Definition is_api_call (ev : Event) : bool :=
  match ev with
  | ApiGet _ _ | ApiLs _ | ApiGetMany _ _ | ApiHydrate _ => true
  | _ => false
  end.

(** The keys the all-policies branch asks the server for: the listed keys
    that no local policy has. *)
Definition keys_to_fetch (c : Collaborators) (url : Url) (headers : Headers)
    (local_policies : list Policy.t) : list FidesKey :=
  filter (fun key => negb (py_in key (map Policy.fides_key local_policies)))
         (api_ls c url "policy" headers).

(** The taxonomy the orchestrator hands to the rule evaluator once the
    policies are resolved. *)
Definition evaluated_taxonomy (c : Collaborators) (url : Url)
    (manifests_dir : string) (headers : Headers) (policies : list Policy.t)
  : Taxonomy.t :=
  let taxonomy := Taxonomy.set_policy (parse c manifests_dir) policies in
  match get_referenced_missing_keys c taxonomy with
  | [] => taxonomy
  | missing => hydrate_missing_resources c url headers missing taxonomy
  end.

(** What the orchestrator prints between the resolution of the policies
    and the start of the rule evaluator. *)
Definition progress_events (c : Collaborators) (manifests_dir : string)
    (policies : list Policy.t) : list Event :=
  let taxonomy := Taxonomy.set_policy (parse c manifests_dir) policies in
  ([ Echo Green ("Evaluating the following policies:" ++ nl ++
                 join nl (map Policy.fides_key policies));
     Print "----------";
     Echo Green "Checking for missing resources..." ] ++
   match get_referenced_missing_keys c taxonomy with
   | [] => []
   | missing =>
       [ Echo Green
           ("Fetching the following missing resources from the server:" ++
            nl ++ join nl missing);
         Echo Green "Hydrating the taxonomy...";
         ApiHydrate missing ]
   end ++
   [ Echo Green "Executing evaluations..." ])%list.

(** What [validate_policies_exist] prints when no policy is resolved. *)
Definition not_found_message (evaluate_fides_key : option string) : string :=
  match evaluate_fides_key with
  | Some ((String _ _) as key) => "Policy " ++ key ++ " could not be found"
  | _ => "No Policies found to evaluate"
  end.

(** What the orchestrator prints after a passing evaluation. *)
Definition success_events (dry : bool) : list Event :=
  ((if dry then []
    else [Echo Green "Sending the evaluation results to the server..."]) ++
   [Echo Green "Evaluation passed!"])%list.

(** ** A server that holds a list of policies *)

(** Modelled from the spec: the helpers of fidesctl.core.api_helpers and
    fidesctl.core.api are not among the sources. The spec gives the remote
    API [list], which returns the keys, [get], which returns the resource
    with a key or nothing, and [get_many], which returns the resources found
    for a list of keys; a lookup that finds nothing is not an error. *)
Definition store_get (remote : list Policy.t) (key : FidesKey)
  : option Policy.t :=
  find (fun policy => String.eqb (Policy.fides_key policy) key) remote.

Definition store_get_many (remote : list Policy.t) (keys : list FidesKey)
  : list Policy.t :=
  flat_map (fun key =>
              match store_get remote key with
              | Some policy => [policy]
              | None => []
              end) keys.

(** The collaborators of a run whose manifests parse to [local], whose
    server holds [remote], and where no reference is missing. *)
Definition store_collaborators (local : Taxonomy.t) (remote : list Policy.t)
  : Collaborators :=
  {| parse := fun _ => local;
     api_ls := fun _ _ _ => map Policy.fides_key remote;
     get_server_resource := fun _ _ key _ => store_get remote key;
     get_server_resources := fun _ _ _ keys => store_get_many remote keys;
     get_referenced_missing_keys := fun _ => [];
     hydrate_missing_resources := fun _ _ _ taxonomy => taxonomy |}.

(** ** Sample resources *)

Definition sample_rule : PolicyRule.t :=
  PolicyRule.mk "reject_targeted_marketing"
    (PrivacyRule.mk ["user.provided.identifiable.contact"] ANY)
    (PrivacyRule.mk ["advertising"] ANY)
    (PrivacyRule.mk ["customer"] ANY)
    "identified_data".

Definition sample_declaration : PrivacyDeclaration.t :=
  PrivacyDeclaration.mk "share_user_emails"
    ["user.provided.identifiable.contact"]
    "advertising"
    ["customer"]
    "identified_data".

Definition sample_system : System.t :=
  System.mk "demo_marketing_system" [sample_declaration].

Definition policy_A : Policy.t := Policy.mk "A" [sample_rule].
(** A rule that differs from [sample_rule] in its qualifier only. *)
Definition other_rule : PolicyRule.t :=
  PolicyRule.mk "reject_pseudonymized_marketing"
    (PrivacyRule.mk ["user.provided.identifiable.contact"] ANY)
    (PrivacyRule.mk ["advertising"] ANY)
    (PrivacyRule.mk ["customer"] ANY)
    "pseudonymized_data".

Definition policy_B : Policy.t := Policy.mk "B" [other_rule].
Definition policy_C : Policy.t := Policy.mk "C" [].

(** The server's own version of policy B. *)
Definition server_policy_B : Policy.t := Policy.mk "B" [sample_rule].

Definition failing_taxonomy : Taxonomy.t :=
  Taxonomy.mk [policy_A] [sample_system].

Definition passing_taxonomy : Taxonomy.t :=
  Taxonomy.mk [policy_B] [sample_system].

Definition empty_taxonomy : Taxonomy.t := Taxonomy.mk [] [sample_system].

(** The numbers of rules and of declarations a taxonomy holds. *)
Definition total_rules (taxonomy : Taxonomy.t) : nat :=
  List.length (flat_map Policy.rules (Taxonomy.policy taxonomy)).

Definition total_declarations (taxonomy : Taxonomy.t) : nat :=
  List.length
    (flat_map System.privacy_declarations (Taxonomy.system taxonomy)).

(** What [evaluate] returns or raises for the evaluation the rule evaluator
    produced. *)
Definition verdict (message : string) (produced : Result Evaluation.t)
  : Result Evaluation.t :=
  match produced with
  | Raise e => Raise e
  | Ok evaluation =>
      match Evaluation.status evaluation with
      | FAIL => Raise EvaluationError
      | PASS => Ok (Evaluation.set_message evaluation message)
      end
  end.

(** ** The schema migration d5807bacca0a

    [migrations/versions/d5807bacca0a_add_legal_basis_purpose_of_processing_.py]
    calls [op.add_column] and [op.drop_column]. A schema maps a table name to
    the ordered list of its columns. Adding a column needs the table and a
    fresh column name and puts the column last; dropping a column needs the
    table and the column. The database refuses anything else. *)
Module Migration.

Inductive SqlType : Type :=
| Text
| TIMESTAMP (timezone : bool).

Record Column : Type := mkColumn {
  name : string;
  type_ : SqlType;
  server_default : option string;
  autoincrement : option bool;
  nullable : bool
}.

Definition Table : Type := list Column.
Definition Schema : Type := string -> option Table.

Inductive DbError : Type :=
| UndefinedTable (table_name : string)
| DuplicateColumn (table_name column_name : string)
| UndefinedColumn (table_name column_name : string).

Definition has_column (columns : Table) (column_name : string) : bool :=
  existsb (fun column => String.eqb (name column) column_name) columns.

Definition set_table (schema : Schema) (table_name : string)
    (columns : Table) : Schema :=
  fun t => if String.eqb t table_name then Some columns else schema t.

Definition add_column (table_name : string) (column : Column)
    (schema : Schema) : DbError + Schema :=
  match schema table_name with
  | None => inl (UndefinedTable table_name)
  | Some columns =>
      if has_column columns (name column)
      then inl (DuplicateColumn table_name (name column))
      else inr (set_table schema table_name (columns ++ [column])%list)
  end.

Definition drop_column (table_name column_name : string) (schema : Schema)
  : DbError + Schema :=
  match schema table_name with
  | None => inl (UndefinedTable table_name)
  | Some columns =>
      if has_column columns column_name
      then inr (set_table schema table_name
                  (filter (fun column =>
                             negb (String.eqb (name column) column_name))
                          columns))
      else inl (UndefinedColumn table_name column_name)
  end.

(** One statement of a migration after another; the first error ends it. *)
Definition and_then (r : DbError + Schema)
    (op : Schema -> DbError + Schema) : DbError + Schema :=
  match r with
  | inl e => inl e
  | inr schema => op schema
  end.

Definition revision : string := "d5807bacca0a".
Definition down_revision : string := "7c851d8a102a".

Definition legal_basis : Column :=
  mkColumn "legal_basis" Text None None true.
Definition purpose_of_processing : Column :=
  mkColumn "purpose_of_processing" Text None None true.
Definition recipient : Column :=
  mkColumn "recipient" Text None None true.
Definition created_at : Column :=
  mkColumn "created_at" (TIMESTAMP true) (Some "now()") (Some false) true.
Definition updated_at : Column :=
  mkColumn "updated_at" (TIMESTAMP true) (Some "now()") (Some false) true.

Definition upgrade (schema : Schema) : DbError + Schema :=
  and_then (and_then (and_then (and_then
    (add_column "data_uses" legal_basis schema)
    (add_column "data_uses" purpose_of_processing))
    (add_column "data_uses" recipient))
    (drop_column "evaluations" "updated_at"))
    (drop_column "evaluations" "created_at").

Definition downgrade (schema : Schema) : DbError + Schema :=
  and_then (and_then (and_then (and_then
    (add_column "evaluations" created_at schema)
    (add_column "evaluations" updated_at))
    (drop_column "data_uses" "recipient"))
    (drop_column "data_uses" "purpose_of_processing"))
    (drop_column "data_uses" "legal_basis").

(** A schema of the revision before this one, for examples: the two tables
    the migration touches and one it does not. *)
Definition fides_key_column : Column :=
  mkColumn "fides_key" Text None None false.

Definition sample_schema : Schema :=
  fun t =>
    if String.eqb t "data_uses" then
      Some [fides_key_column; mkColumn "parent_key" Text None None true]
    else if String.eqb t "evaluations" then
      Some [fides_key_column; created_at; updated_at;
            mkColumn "status" Text None None true]
    else if String.eqb t "systems" then Some [fides_key_column]
    else None.

(** The same schema at this revision. *)
Definition sample_schema_upgraded : Schema :=
  fun t =>
    if String.eqb t "data_uses" then
      Some [fides_key_column; mkColumn "parent_key" Text None None true;
            legal_basis; purpose_of_processing; recipient]
    else if String.eqb t "evaluations" then
      Some [fides_key_column; mkColumn "status" Text None None true]
    else if String.eqb t "systems" then Some [fides_key_column]
    else None.

End Migration.

(** * Properties *)

(** ** Builtins *)

Lemma py_in_In (x : FidesKey) (xs : list FidesKey) :
  py_in x xs = true <-> In x xs.
Proof.
  induction xs as [|y ys IH]; simpl.
  - split; [discriminate | tauto].
  - destruct (String.eqb x y) eqn:E.
    + apply String.eqb_eq in E. subst. tauto.
    + apply String.eqb_neq in E. rewrite IH. split; [tauto|].
      intros [H|H]; [congruence | exact H].
Qed.

Lemma any_true (xs : list bool) : any xs = true <-> In true xs.
Proof.
  induction xs as [|[] r IH]; simpl.
  - split; [discriminate | tauto].
  - tauto.
  - rewrite IH. split; [tauto|]. intros [H|H]; [discriminate | exact H].
Qed.

Lemma all_true (xs : list bool) :
  all xs = true <-> forall b, In b xs -> b = true.
Proof.
  induction xs as [|[] r IH]; simpl.
  - split; [intros _ b [] | reflexivity].
  - rewrite IH. split.
    + intros H b [<-|Hb]; [reflexivity | auto].
    + auto.
  - split; [discriminate|]. intros H. apply H. now left.
Qed.

Lemma dict_getitem_inclusion_map (k : InclusionEnum) :
  dict_getitem inclusion_map k =
  Ok (match k with
      | ANY => any
      | ALL => all
      | NONE => fun x => negb (any x)
      end).
Proof. destruct k; reflexivity. Qed.

(** ** The comparator *)

Lemma membership_any (rule_types declaration_types : list FidesKey) :
  any (map (fun d => py_in d rule_types) declaration_types) = true <->
  exists d, In d declaration_types /\ In d rule_types.
Proof.
  rewrite any_true, in_map_iff. split.
  - intros (d & Hd & Hin). exists d. split; [exact Hin|].
    now apply py_in_In.
  - intros (d & Hin & Hd). exists d. split; [|exact Hin].
    now apply py_in_In.
Qed.

Lemma membership_all (rule_types declaration_types : list FidesKey) :
  all (map (fun d => py_in d rule_types) declaration_types) = true <->
  forall d, In d declaration_types -> In d rule_types.
Proof.
  rewrite all_true. split.
  - intros H d Hd. apply py_in_In. apply H. apply in_map_iff. now exists d.
  - intros H b Hb. apply in_map_iff in Hb as (d & <- & Hd).
    apply py_in_In. auto.
Qed.

(** C1: the comparator always returns a boolean (the dict subscript cannot
    fail), and that boolean is true exactly when, for ANY, some declaration
    value is among the rule values; for ALL, every declaration value is; for
    NONE, no declaration value is. *)
Theorem compare_rule_to_declaration_spec
    (rule_types declaration_types : list FidesKey)
    (rule_inclusion : InclusionEnum) :
  exists b : bool,
    compare_rule_to_declaration rule_types declaration_types rule_inclusion
      = Ok b /\
    match rule_inclusion with
    | ANY => b = true <->
             exists d, In d declaration_types /\ In d rule_types
    | ALL => b = true <->
             forall d, In d declaration_types -> In d rule_types
    | NONE => b = true <->
              ~ exists d, In d declaration_types /\ In d rule_types
    end.
Proof.
  unfold compare_rule_to_declaration.
  rewrite dict_getitem_inclusion_map.
  eexists. split; [reflexivity|].
  destruct rule_inclusion.
  - apply membership_any.
  - apply membership_all.
  - rewrite negb_true_iff, <- not_true_iff_false.
    now rewrite membership_any.
Qed.

(** C6: with no declaration values the comparator returns true for NONE,
    true for ALL and false for ANY, whatever the rule values. *)
Theorem compare_rule_to_declaration_empty (rule_types : list FidesKey) :
  compare_rule_to_declaration rule_types [] NONE = Ok true /\
  compare_rule_to_declaration rule_types [] ALL = Ok true /\
  compare_rule_to_declaration rule_types [] ANY = Ok false.
Proof. repeat split. Qed.

Lemma compare_rule_to_declaration_total
    (rule_types declaration_types : list FidesKey)
    (rule_inclusion : InclusionEnum) :
  compare_rule_to_declaration rule_types declaration_types rule_inclusion =
  Ok (holds (compare_rule_to_declaration rule_types declaration_types
               rule_inclusion)).
Proof.
  unfold compare_rule_to_declaration.
  now rewrite dict_getitem_inclusion_map.
Qed.

(** ** The rule evaluator *)

Section Loops.

Context {A : Type}.

(** A loop whose body only appends to the list appends, in order, what
    each iteration appends. *)
Lemma for_each_appends (body : A -> list string -> Result (list string))
    (g : A -> list string) (l : list A) :
  (forall a s, In a l -> body a s = Ok (s ++ g a)%list) ->
  forall s, for_each l body s = Ok (s ++ flat_map g l)%list.
Proof.
  induction l as [|a r IH]; intros Hbody s; simpl.
  - now rewrite app_nil_r.
  - rewrite Hbody by now left. simpl.
    rewrite IH by (intros; apply Hbody; now right).
    now rewrite app_assoc.
Qed.

Lemma flat_map_nested {B C : Type} (f : A -> list B) (g : B -> list C)
    (l : list A) :
  flat_map g (flat_map f l) = flat_map (fun a => flat_map g (f a)) l.
Proof.
  induction l as [|a r IH]; simpl; [reflexivity|].
  now rewrite flat_map_app, IH.
Qed.

Lemma flat_map_of_map {B C : Type} (f : A -> B) (g : B -> list C)
    (l : list A) :
  flat_map g (map f l) = flat_map (fun a => g (f a)) l.
Proof.
  induction l as [|a r IH]; simpl; [reflexivity|]. now rewrite IH.
Qed.

Lemma map_filter_flat_map {B : Type} (p : A -> bool) (f : A -> B)
    (l : list A) :
  map f (filter p l) = flat_map (fun a => if p a then [f a] else []) l.
Proof.
  induction l as [|a r IH]; simpl; [reflexivity|].
  destruct (p a); simpl; now rewrite IH.
Qed.

End Loops.

Lemma execute_evaluation_eq (taxonomy : Taxonomy.t) :
  execute_evaluation taxonomy =
  Ok (Evaluation.mk
        (match violation_details taxonomy with [] => PASS | _ :: _ => FAIL end)
        (violation_details taxonomy) None).
Proof.
  unfold execute_evaluation.
  rewrite (for_each_appends _
    (fun policy =>
       flat_map (fun rule =>
         flat_map (fun system =>
           flat_map (fun declaration =>
             if violation (policy, rule, system, declaration)
             then [detail (policy, rule, system, declaration)] else [])
             (System.privacy_declarations system))
           (Taxonomy.system taxonomy))
         (Policy.rules policy))).
  - simpl. unfold violation_details, quadruples.
    rewrite map_filter_flat_map, flat_map_nested.
    match goal with
    | |- Ok (Evaluation.mk _ ?l _) = Ok (Evaluation.mk _ ?r _) =>
        assert (E : l = r)
    end.
    { apply flat_map_ext. intros policy. rewrite flat_map_nested.
      apply flat_map_ext. intros rule. rewrite flat_map_nested.
      apply flat_map_ext. intros system. now rewrite flat_map_of_map. }
    rewrite E. unfold bindR.
    match goal with
    | |- context [Evaluation.mk _ ?l None] => destruct l; reflexivity
    end.
  - intros policy s _. apply for_each_appends.
    intros rule s1 _. apply for_each_appends.
    intros system s2 _. apply for_each_appends.
    intros declaration s3 _.
    unfold violation, category_check, use_check, subject_check,
      qualifier_check.
    pose proof (compare_rule_to_declaration_total
      (PrivacyRule.values (PolicyRule.data_categories rule))
      (PrivacyDeclaration.data_categories declaration)
      (PrivacyRule.inclusion (PolicyRule.data_categories rule))) as Hc.
    pose proof (compare_rule_to_declaration_total
      (PrivacyRule.values (PolicyRule.data_uses rule))
      [PrivacyDeclaration.data_use declaration]
      (PrivacyRule.inclusion (PolicyRule.data_uses rule))) as Hu.
    pose proof (compare_rule_to_declaration_total
      (PrivacyRule.values (PolicyRule.data_subjects rule))
      (PrivacyDeclaration.data_subjects declaration)
      (PrivacyRule.inclusion (PolicyRule.data_subjects rule))) as Hs.
    destruct (compare_rule_to_declaration
                (PrivacyRule.values (PolicyRule.data_categories rule)) _ _)
      as [[]|]; [| |discriminate];
    destruct (compare_rule_to_declaration
                (PrivacyRule.values (PolicyRule.data_uses rule)) _ _)
      as [[]|]; try discriminate;
    destruct (compare_rule_to_declaration
                (PrivacyRule.values (PolicyRule.data_subjects rule)) _ _)
      as [[]|]; try discriminate;
    destruct (String.eqb _ _);
    cbn [bindR all holds andb];
    try reflexivity; now rewrite app_nil_r.
Qed.

Lemma string_app_assoc (a b d : string) : (a ++ b) ++ d = a ++ (b ++ d).
Proof. induction a as [|ch a IH]; simpl; [reflexivity | now rewrite IH]. Qed.

Lemma quadruples_In (taxonomy : Taxonomy.t) (policy : Policy.t)
    (rule : PolicyRule.t) (system : System.t)
    (declaration : PrivacyDeclaration.t) :
  In (policy, rule, system, declaration) (quadruples taxonomy) <->
  In policy (Taxonomy.policy taxonomy) /\
  In rule (Policy.rules policy) /\
  In system (Taxonomy.system taxonomy) /\
  In declaration (System.privacy_declarations system).
Proof.
  unfold quadruples. rewrite in_flat_map. split.
  - intros (p & Hp & H). apply in_flat_map in H as (r & Hr & H).
    apply in_flat_map in H as (s & Hs & H).
    apply in_map_iff in H as (d & E & Hd).
    injection E as -> -> -> ->. tauto.
  - intros (Hp & Hr & Hs & Hd). exists policy. split; [exact Hp|].
    apply in_flat_map. exists rule. split; [exact Hr|].
    apply in_flat_map. exists system. split; [exact Hs|].
    apply in_map_iff. now exists declaration.
Qed.

Lemma holds_true (r : Result bool) : holds r = true <-> r = Ok true.
Proof.
  destruct r as [[]|]; simpl; split; congruence.
Qed.

Lemma violation_iff (policy : Policy.t) (rule : PolicyRule.t)
    (system : System.t) (declaration : PrivacyDeclaration.t) :
  violation (policy, rule, system, declaration) = true <->
  compare_rule_to_declaration
    (PrivacyRule.values (PolicyRule.data_categories rule))
    (PrivacyDeclaration.data_categories declaration)
    (PrivacyRule.inclusion (PolicyRule.data_categories rule)) = Ok true /\
  compare_rule_to_declaration
    (PrivacyRule.values (PolicyRule.data_uses rule))
    [PrivacyDeclaration.data_use declaration]
    (PrivacyRule.inclusion (PolicyRule.data_uses rule)) = Ok true /\
  compare_rule_to_declaration
    (PrivacyRule.values (PolicyRule.data_subjects rule))
    (PrivacyDeclaration.data_subjects declaration)
    (PrivacyRule.inclusion (PolicyRule.data_subjects rule)) = Ok true /\
  PrivacyDeclaration.data_qualifier declaration =
  PolicyRule.data_qualifier rule.
Proof.
  unfold violation, category_check, use_check, subject_check,
    qualifier_check.
  rewrite !andb_true_iff, !holds_true, String.eqb_eq. tauto.
Qed.

Lemma detail_contains (policy : Policy.t) (rule : PolicyRule.t)
    (system : System.t) (declaration : PrivacyDeclaration.t) :
  let s := detail (policy, rule, system, declaration) in
  contains s (PrivacyDeclaration.name declaration) /\
  contains s (System.fides_key system) /\
  contains s (PolicyRule.name rule) /\
  contains s (Policy.fides_key policy).
Proof.
  unfold detail, contains. repeat split.
  - eexists _, _. reflexivity.
  - eexists _, _. rewrite <- 2 string_app_assoc. reflexivity.
  - eexists _, _. rewrite <- 4 string_app_assoc. reflexivity.
  - eexists _, _. rewrite <- 6 string_app_assoc. reflexivity.
Qed.

(** C2: [execute_evaluation] returns an evaluation whose details are, in
    scan order, one string per scanned (policy, rule, system, declaration)
    quadruple for which the category comparison, the use comparison on the
    one-element list of the declaration's data_use, the subject comparison
    and the equality of the two data_qualifiers all hold, and no other
    string; the string of a quadruple contains the declaration's name, the
    system's fides_key, the rule's name and the policy's fides_key. *)
Theorem execute_evaluation_records_violations (taxonomy : Taxonomy.t) :
  exists evaluation : Evaluation.t,
    execute_evaluation taxonomy = Ok evaluation /\
    Evaluation.details evaluation =
      map detail (filter violation (quadruples taxonomy)) /\
    (forall s : string,
        In s (Evaluation.details evaluation) <->
        exists q, In q (quadruples taxonomy) /\ violation q = true /\
                  s = detail q) /\
    (forall policy rule system declaration,
        In (policy, rule, system, declaration) (quadruples taxonomy) <->
        In policy (Taxonomy.policy taxonomy) /\
        In rule (Policy.rules policy) /\
        In system (Taxonomy.system taxonomy) /\
        In declaration (System.privacy_declarations system)) /\
    (forall policy rule system declaration,
        violation (policy, rule, system, declaration) = true <->
        compare_rule_to_declaration
          (PrivacyRule.values (PolicyRule.data_categories rule))
          (PrivacyDeclaration.data_categories declaration)
          (PrivacyRule.inclusion (PolicyRule.data_categories rule))
          = Ok true /\
        compare_rule_to_declaration
          (PrivacyRule.values (PolicyRule.data_uses rule))
          [PrivacyDeclaration.data_use declaration]
          (PrivacyRule.inclusion (PolicyRule.data_uses rule)) = Ok true /\
        compare_rule_to_declaration
          (PrivacyRule.values (PolicyRule.data_subjects rule))
          (PrivacyDeclaration.data_subjects declaration)
          (PrivacyRule.inclusion (PolicyRule.data_subjects rule))
          = Ok true /\
        PrivacyDeclaration.data_qualifier declaration =
        PolicyRule.data_qualifier rule) /\
    (forall policy rule system declaration,
        let s := detail (policy, rule, system, declaration) in
        contains s (PrivacyDeclaration.name declaration) /\
        contains s (System.fides_key system) /\
        contains s (PolicyRule.name rule) /\
        contains s (Policy.fides_key policy)).
Proof.
  eexists. split; [apply execute_evaluation_eq|]. cbn [Evaluation.details].
  split; [reflexivity|]. split; [|split; [|split]].
  - intros s. unfold violation_details. rewrite in_map_iff. split.
    + intros (q & <- & Hq). apply filter_In in Hq. exists q. tauto.
    + intros (q & Hq & Hv & ->). exists q. split; [reflexivity|].
      apply filter_In. tauto.
  - apply quadruples_In.
  - apply violation_iff.
  - apply detail_contains.
Qed.

(** A declaration whose data_use is the only element of the rule's ANY
    list passes the use check. *)
Lemma use_check_single_any (rule_name qualifier : string)
    (categories subjects : PrivacyRule.t) (data_use : FidesKey)
    (name declared_qualifier : string)
    (declared_categories declared_subjects : list FidesKey) :
  use_check
    (PolicyRule.mk rule_name categories (PrivacyRule.mk [data_use] ANY)
       subjects qualifier)
    (PrivacyDeclaration.mk name declared_categories data_use
       declared_subjects declared_qualifier) = true.
Proof.
  unfold use_check, compare_rule_to_declaration. simpl.
  now rewrite String.eqb_refl.
Qed.

Lemma filter_none {A} (p : A -> bool) (l : list A) :
  (forall x, In x l -> p x = false) -> filter p l = [].
Proof.
  induction l as [|a r IH]; intros H; simpl; [reflexivity|].
  rewrite (H a) by now left. apply IH. intros x Hx. apply H. now right.
Qed.

(** C3: the evaluation returned by [execute_evaluation] has status FAIL when
    its list of details is not empty and PASS when it is empty; a taxonomy of
    one policy with one rule and one system with one declaration that
    violates the rule gives FAIL with exactly the detail string of that
    quadruple; a taxonomy none of whose quadruples is a violation gives PASS
    with no details. *)
Theorem execute_evaluation_status :
  (forall taxonomy : Taxonomy.t,
      exists evaluation : Evaluation.t,
        execute_evaluation taxonomy = Ok evaluation /\
        Evaluation.status evaluation =
          match Evaluation.details evaluation with
          | [] => PASS
          | _ :: _ => FAIL
          end) /\
  (forall (policy_key : FidesKey) (rule : PolicyRule.t)
          (system_key : FidesKey) (declaration : PrivacyDeclaration.t),
      let policy := Policy.mk policy_key [rule] in
      let system := System.mk system_key [declaration] in
      violation (policy, rule, system, declaration) = true ->
      execute_evaluation (Taxonomy.mk [policy] [system]) =
        Ok (Evaluation.mk FAIL
              [detail (policy, rule, system, declaration)] None) /\
      contains (detail (policy, rule, system, declaration))
               (PrivacyDeclaration.name declaration) /\
      contains (detail (policy, rule, system, declaration)) system_key /\
      contains (detail (policy, rule, system, declaration))
               (PolicyRule.name rule) /\
      contains (detail (policy, rule, system, declaration)) policy_key) /\
  (forall taxonomy : Taxonomy.t,
      (forall q, In q (quadruples taxonomy) -> violation q = false) ->
      execute_evaluation taxonomy = Ok (Evaluation.mk PASS [] None)).
Proof.
  split; [|split].
  - intros taxonomy. eexists. split; [apply execute_evaluation_eq|].
    reflexivity.
  - intros policy_key rule system_key declaration policy system Hv.
    split; [|apply (detail_contains policy rule system declaration)].
    rewrite execute_evaluation_eq. unfold violation_details.
    change (quadruples (Taxonomy.mk [policy] [system]))
      with [(policy, rule, system, declaration)].
    cbn [filter]. now rewrite Hv.
  - intros taxonomy Hnone. rewrite execute_evaluation_eq.
    unfold violation_details. now rewrite filter_none.
Qed.

Lemma execute_evaluation_status_witness :
  execute_evaluation failing_taxonomy =
    Ok (Evaluation.mk FAIL
          [ "Declaration (share_user_emails) of System (demo_marketing_system) failed Rule (reject_targeted_marketing) from Policy (A)" ]
          None) /\
  execute_evaluation passing_taxonomy = Ok (Evaluation.mk PASS [] None).
Proof.
  split.
  - apply (proj1 (proj2 execute_evaluation_status)
             "A" sample_rule "demo_marketing_system" sample_declaration).
    reflexivity.
  - apply (proj2 (proj2 execute_evaluation_status) passing_taxonomy).
    intros q [<-|[]]. reflexivity.
Defined.

(** ** The policy resolver *)

Lemma get_all_server_policies_eq (c : Collaborators) (url : Url)
    (headers : Headers) (local_policies : list Policy.t) (tr : list Event) :
  get_all_server_policies c url headers
    (match local_policies with
     | _ :: _ => Some (map Policy.fides_key local_policies)
     | [] => None
     end) tr =
  (Ok (get_server_resources c url "policy" headers
         (keys_to_fetch c url headers local_policies)),
   (tr ++ [ ApiLs "policy";
            ApiGetMany "policy"
              (keys_to_fetch c url headers local_policies) ])%list).
Proof.
  unfold get_all_server_policies, call_api_ls, call_get_server_resources,
    keys_to_fetch, bind, emit, ret.
  destruct local_policies; cbv beta iota; rewrite <- app_assoc; reflexivity.
Qed.

Lemma get_evaluation_policies_no_key (c : Collaborators)
    (local_policies : list Policy.t) (evaluate_fides_key : option string)
    (url : Url) (headers : Headers) (tr : list Event) :
  truthy_key evaluate_fides_key = false ->
  get_evaluation_policies c local_policies evaluate_fides_key url headers tr =
  (Ok (local_policies ++
       get_server_resources c url "policy" headers
         (keys_to_fetch c url headers local_policies))%list,
   (tr ++ [ ApiLs "policy";
            ApiGetMany "policy"
              (keys_to_fetch c url headers local_policies) ])%list).
Proof.
  intros Hk. unfold get_evaluation_policies.
  destruct evaluate_fides_key as [[|ch k]|]; try discriminate;
    unfold bind; rewrite get_all_server_policies_eq; reflexivity.
Qed.

Lemma keys_to_fetch_In (c : Collaborators) (url : Url) (headers : Headers)
    (local_policies : list Policy.t) (key : FidesKey) :
  In key (keys_to_fetch c url headers local_policies) <->
  In key (api_ls c url "policy" headers) /\
  ~ In key (map Policy.fides_key local_policies).
Proof.
  unfold keys_to_fetch. rewrite filter_In, negb_true_iff.
  rewrite <- not_true_iff_false, py_in_In. tauto.
Qed.

Lemma store_get_unique (remote : list Policy.t) (policy : Policy.t) :
  NoDup (map Policy.fides_key remote) -> In policy remote ->
  store_get remote (Policy.fides_key policy) = Some policy.
Proof.
  unfold store_get. induction remote as [|q r IH]; intros Hnd Hin.
  - destruct Hin.
  - simpl in Hnd. inversion Hnd as [|k ks Hq Hr]; subst. simpl.
    destruct (String.eqb_spec (Policy.fides_key q) (Policy.fides_key policy))
      as [E|E].
    + destruct Hin as [->|Hin]; [reflexivity|].
      exfalso. apply Hq. rewrite E. now apply in_map.
    + destruct Hin as [->|Hin]; [congruence|]. now apply IH.
Qed.

Lemma store_get_many_filter (remote l : list Policy.t)
    (f : FidesKey -> bool) :
  (forall p, In p l -> store_get remote (Policy.fides_key p) = Some p) ->
  store_get_many remote (filter f (map Policy.fides_key l)) =
  filter (fun p => f (Policy.fides_key p)) l.
Proof.
  unfold store_get_many.
  induction l as [|p r IH]; intros H; simpl; [reflexivity|].
  destruct (f (Policy.fides_key p)); simpl.
  - rewrite (H p) by now left. simpl. f_equal.
    apply IH. intros q Hq. apply H. now right.
  - apply IH. intros q Hq. apply H. now right.
Qed.

(** C4: with a non-empty target key, the resolver returns the first local
    policy with that key, alone, and leaves the trace as it is (no call to
    the server) when some local policy has the key; when none has it, it asks
    the server once for that key and returns the policy found, alone, or the
    empty list. *)
Theorem get_evaluation_policies_target_key (c : Collaborators)
    (local_policies : list Policy.t) (key : FidesKey) (url : Url)
    (headers : Headers) (tr : list Event) :
  key <> "" ->
  ((exists policy, In policy local_policies /\
                   Policy.fides_key policy = key) ->
   exists found,
     In found local_policies /\ Policy.fides_key found = key /\
     find (fun policy => String.eqb (Policy.fides_key policy) key)
          local_policies = Some found /\
     get_evaluation_policies c local_policies (Some key) url headers tr =
       (Ok [found], tr)) /\
  ((forall policy, In policy local_policies ->
                   Policy.fides_key policy <> key) ->
   get_evaluation_policies c local_policies (Some key) url headers tr =
     (Ok (match get_server_resource c url "policy" key headers with
          | Some server_policy => [server_policy]
          | None => []
          end),
      (tr ++ [ApiGet "policy" key])%list)).
Proof.
  intros Hkey. destruct key as [|ch k]; [congruence|].
  unfold get_evaluation_policies. split.
  - intros (policy & Hin & Hk).
    destruct (find _ local_policies) as [found|] eqn:F.
    + apply find_some in F as F'. destruct F' as [Hf Hfk].
      apply String.eqb_eq in Hfk. now exists found.
    + exfalso. apply (find_none _ _ F) in Hin.
      apply String.eqb_neq in Hin. contradiction.
  - intros Hnone.
    destruct (find _ local_policies) as [found|] eqn:F.
    + apply find_some in F as [Hf Hfk]. apply String.eqb_eq in Hfk.
      exfalso. exact (Hnone found Hf Hfk).
    + reflexivity.
Qed.

Lemma get_evaluation_policies_target_key_witness :
  "A" <> "" /\
  get_evaluation_policies
    (store_collaborators failing_taxonomy [server_policy_B; policy_C])
    [policy_A; policy_B] (Some "A") "http://fidesctl:8080" [] [] =
  (Ok [policy_A], []).
Proof.
  split; [discriminate|].
  destruct (proj1 (get_evaluation_policies_target_key
                     (store_collaborators failing_taxonomy
                        [server_policy_B; policy_C])
                     [policy_A; policy_B] "A" "http://fidesctl:8080" [] []
                     ltac:(discriminate))
              (ex_intro _ policy_A (conj (or_introl eq_refl) eq_refl)))
    as (found & _ & _ & F & E).
  injection F as <-. exact E.
Defined.

(** C5: without a target key, the resolver lists the server's policy keys,
    fetches exactly the listed keys that no local policy has, and returns the
    local policies followed by the fetched ones; for a server that holds one
    policy per key these are the server's policies whose key no local policy
    has; local A, B with a server holding B and C gives A, the local B, and
    C, and only C is fetched. *)
Theorem get_evaluation_policies_all :
  (forall (c : Collaborators) (local_policies : list Policy.t) (url : Url)
          (headers : Headers) (tr : list Event),
      get_evaluation_policies c local_policies None url headers tr =
        (Ok (local_policies ++
             get_server_resources c url "policy" headers
               (keys_to_fetch c url headers local_policies))%list,
         (tr ++ [ ApiLs "policy";
                  ApiGetMany "policy"
                    (keys_to_fetch c url headers local_policies) ])%list) /\
      forall key,
        In key (keys_to_fetch c url headers local_policies) <->
        In key (api_ls c url "policy" headers) /\
        ~ In key (map Policy.fides_key local_policies)) /\
  (forall (parsed : Taxonomy.t) (remote local_policies : list Policy.t)
          (url : Url) (headers : Headers) (tr : list Event),
      NoDup (map Policy.fides_key remote) ->
      fst (get_evaluation_policies (store_collaborators parsed remote)
             local_policies None url headers tr) =
        Ok (local_policies ++
            filter (fun policy =>
                      negb (py_in (Policy.fides_key policy)
                              (map Policy.fides_key local_policies)))
                   remote)%list) /\
  get_evaluation_policies
    (store_collaborators failing_taxonomy [server_policy_B; policy_C])
    [policy_A; policy_B] None "http://fidesctl:8080" [] [] =
    (Ok [policy_A; policy_B; policy_C],
     [ApiLs "policy"; ApiGetMany "policy" ["C"]]).
Proof.
  split; [|split].
  - intros c local_policies url headers tr. split.
    + now apply get_evaluation_policies_no_key.
    + intros key. apply keys_to_fetch_In.
  - intros parsed remote local_policies url headers tr Hnd.
    rewrite get_evaluation_policies_no_key by reflexivity.
    cbn [fst]. do 2 f_equal.
    unfold keys_to_fetch. cbn [store_collaborators get_server_resources api_ls].
    apply store_get_many_filter with
      (f := fun key => negb (py_in key (map Policy.fides_key local_policies))).
    intros p Hp. now apply store_get_unique.
  - reflexivity.
Qed.

Lemma get_evaluation_policies_all_witness :
  NoDup (map Policy.fides_key [server_policy_B; policy_C]) /\
  fst (get_evaluation_policies
         (store_collaborators failing_taxonomy [server_policy_B; policy_C])
         [policy_A; policy_B] None "http://fidesctl:8080" [] []) =
  Ok [policy_A; policy_B; policy_C].
Proof.
  assert (Hnd : NoDup (map Policy.fides_key [server_policy_B; policy_C])).
  { simpl. repeat constructor; simpl; intuition discriminate. }
  split; [exact Hnd|].
  exact (proj1 (proj2 get_evaluation_policies_all)
           failing_taxonomy [server_policy_B; policy_C] [policy_A; policy_B]
           "http://fidesctl:8080" [] [] Hnd).
Defined.

(** C10: an empty string as target key takes the branch of a missing key:
    the result and the calls to the server are those of the all-policies
    branch (a listing and a fetch of the keys that are not local), and no
    policy is looked up by key. *)
Theorem get_evaluation_policies_empty_key (c : Collaborators)
    (local_policies : list Policy.t) (url : Url) (headers : Headers)
    (tr : list Event) :
  get_evaluation_policies c local_policies (Some "") url headers tr =
    get_evaluation_policies c local_policies None url headers tr /\
  get_evaluation_policies c local_policies (Some "") url headers tr =
    (Ok (local_policies ++
         get_server_resources c url "policy" headers
           (keys_to_fetch c url headers local_policies))%list,
     (tr ++ [ ApiLs "policy";
              ApiGetMany "policy"
                (keys_to_fetch c url headers local_policies) ])%list).
Proof.
  split.
  - reflexivity.
  - now apply get_evaluation_policies_no_key.
Qed.

(** ** The orchestrator *)

(** The resolver never raises, and all it adds to the trace are calls to
    the server. *)
Lemma get_evaluation_policies_trace (c : Collaborators)
    (local_policies : list Policy.t) (evaluate_fides_key : option string)
    (url : Url) (headers : Headers) (tr : list Event) :
  exists policies calls,
    get_evaluation_policies c local_policies evaluate_fides_key url headers tr
      = (Ok policies, (tr ++ calls)%list) /\
    forallb is_api_call calls = true.
Proof.
  destruct (truthy_key evaluate_fides_key) eqn:Hk.
  - destruct evaluate_fides_key as [[|ch k]|]; try discriminate.
    unfold get_evaluation_policies.
    destruct (find _ local_policies) as [found|].
    + exists [found], []. now rewrite app_nil_r.
    + eexists _, [ApiGet "policy" (String ch k)]. split; reflexivity.
  - rewrite get_evaluation_policies_no_key by exact Hk.
    eexists _, _. split; reflexivity.
Qed.

Lemma validate_policies_exist_empty (evaluate_fides_key : option string)
    (tr : list Event) :
  validate_policies_exist [] evaluate_fides_key tr =
  (Raise EvaluationError,
   (tr ++ [Echo Red (not_found_message evaluate_fides_key)])%list).
Proof. reflexivity. Qed.

(** The run of the orchestrator once the policies are resolved. *)
Lemma evaluate_after_resolution (c : Collaborators) (url : Url)
    (manifests_dir : string) (fides_key : option string) (headers : Headers)
    (message : string) (dry : bool) (tr tr1 : list Event)
    (policies : list Policy.t) :
  get_evaluation_policies c (Taxonomy.policy (parse c manifests_dir))
    fides_key url headers tr = (Ok policies, tr1) ->
  evaluate c url manifests_dir fides_key headers message dry tr =
  match policies with
  | [] =>
      (Raise EvaluationError,
       (tr1 ++ [Echo Red (not_found_message fides_key)])%list)
  | _ :: _ =>
      match
        execute_evaluation
          (evaluated_taxonomy c url manifests_dir headers policies)
      with
      | Raise e =>
          (Raise e, (tr1 ++ progress_events c manifests_dir policies)%list)
      | Ok evaluation =>
          let evaluation := Evaluation.set_message evaluation message in
          match Evaluation.status evaluation with
          | FAIL =>
              (Raise EvaluationError,
               (tr1 ++ progress_events c manifests_dir policies ++
                [PrettyEcho evaluation Red])%list)
          | PASS =>
              (Ok evaluation,
               (tr1 ++ progress_events c manifests_dir policies ++
                success_events dry)%list)
          end
      end
  end.
Proof.
  intros Hres. unfold evaluate, bind at 1. rewrite Hres.
  destruct policies as [|p ps]; [reflexivity|].
  unfold evaluated_taxonomy, progress_events.
  cbv beta iota zeta delta
    [bind validate_policies_exist echo_green print pretty_echo
     call_hydrate_missing_resources emit ret raise lift truthy_list].
  change (Taxonomy.policy (Taxonomy.set_policy (parse c manifests_dir)
                             (p :: ps))) with (p :: ps).
  cbn [negb].
  destruct (get_referenced_missing_keys c (Taxonomy.set_policy _ _))
    as [|k ks];
    cbv beta iota;
    (match goal with
     | |- context [execute_evaluation ?t] =>
         destruct (execute_evaluation t) as [[[] ds msg]|e]
     end);
    cbn [Evaluation.set_message Evaluation.status StatusEnum_value];
    try change (String.eqb "FAIL" "FAIL") with true;
    try change (String.eqb "PASS" "FAIL") with false;
    try destruct dry; cbn [negb success_events];
    cbv beta iota; f_equal;
    repeat rewrite <- app_assoc; reflexivity.
Qed.

(** C7: when the resolver returns no policy, [validate_policies_exist]
    raises EvaluationError and so does [evaluate]; all the run adds to the
    trace are the resolver's calls to the server and the red message, so the
    rule evaluator is not started and no report is printed. *)
Theorem evaluate_no_policies (c : Collaborators) (url : Url)
    (manifests_dir : string) (fides_key : option string) (headers : Headers)
    (message : string) (dry : bool) (tr tr1 : list Event) :
  get_evaluation_policies c (Taxonomy.policy (parse c manifests_dir))
    fides_key url headers tr = (Ok [], tr1) ->
  validate_policies_exist [] fides_key tr1 =
    (Raise EvaluationError,
     (tr1 ++ [Echo Red (not_found_message fides_key)])%list) /\
  exists calls : list Event,
    tr1 = (tr ++ calls)%list /\
    forallb is_api_call calls = true /\
    evaluate c url manifests_dir fides_key headers message dry tr =
      (Raise EvaluationError,
       (tr ++ calls ++ [Echo Red (not_found_message fides_key)])%list) /\
    ~ In (Echo Green "Executing evaluations...")
         (calls ++ [Echo Red (not_found_message fides_key)]) /\
    forall evaluation color,
      ~ In (PrettyEcho evaluation color)
           (calls ++ [Echo Red (not_found_message fides_key)]).
Proof.
  intros Hres. split; [apply validate_policies_exist_empty|].
  destruct (get_evaluation_policies_trace c
              (Taxonomy.policy (parse c manifests_dir)) fides_key url
              headers tr) as (policies & calls & Htrace & Hcalls).
  rewrite Hres in Htrace. injection Htrace as _ ->.
  exists calls. split; [reflexivity|]. split; [exact Hcalls|].
  rewrite forallb_forall in Hcalls.
  split; [|split].
  - rewrite (evaluate_after_resolution _ _ _ _ _ _ _ _ _ _ Hres).
    now rewrite <- app_assoc.
  - intros Hin. apply in_app_or in Hin as [Hin|[Hin|[]]].
    + apply Hcalls in Hin. discriminate.
    + discriminate.
  - intros evaluation color Hin. apply in_app_or in Hin as [Hin|[Hin|[]]].
    + apply Hcalls in Hin. discriminate.
    + discriminate.
Qed.

Lemma evaluate_no_policies_witness :
  evaluate (store_collaborators empty_taxonomy [policy_C])
    "http://fidesctl:8080" "demo_resources" (Some "A") [] "nightly run"
    false [] =
  (Raise EvaluationError,
   [ApiGet "policy" "A"; Echo Red "Policy A could not be found"]).
Proof.
  destruct (evaluate_no_policies
              (store_collaborators empty_taxonomy [policy_C])
              "http://fidesctl:8080" "demo_resources" (Some "A") []
              "nightly run" false [] [ApiGet "policy" "A"] eq_refl)
    as (_ & calls & Hcalls & _ & Heval & _).
  apply (app_inv_head []) in Hcalls. subst calls. exact Heval.
Defined.

(** C8: once the policies are resolved and not empty, an evaluation with
    status FAIL makes [evaluate] raise EvaluationError, and the last thing
    printed before that is the evaluation (status, details and the caller's
    message) in red, after the progress messages; an evaluation with status
    PASS is returned, with the message, and nothing is raised. *)
Theorem evaluate_fail_raises (c : Collaborators) (url : Url)
    (manifests_dir : string) (fides_key : option string) (headers : Headers)
    (message : string) (dry : bool) (tr tr1 : list Event)
    (policies : list Policy.t) (evaluation : Evaluation.t) :
  get_evaluation_policies c (Taxonomy.policy (parse c manifests_dir))
    fides_key url headers tr = (Ok policies, tr1) ->
  policies <> [] ->
  execute_evaluation (evaluated_taxonomy c url manifests_dir headers policies)
    = Ok evaluation ->
  (Evaluation.status evaluation = FAIL ->
   evaluate c url manifests_dir fides_key headers message dry tr =
     (Raise EvaluationError,
      (tr1 ++ progress_events c manifests_dir policies ++
       [PrettyEcho
          (Evaluation.mk FAIL (Evaluation.details evaluation) (Some message))
          Red])%list)) /\
  (Evaluation.status evaluation = PASS ->
   evaluate c url manifests_dir fides_key headers message dry tr =
     (Ok (Evaluation.mk PASS (Evaluation.details evaluation) (Some message)),
      (tr1 ++ progress_events c manifests_dir policies ++
       success_events dry)%list)).
Proof.
  intros Hres Hne Hexec.
  rewrite (evaluate_after_resolution _ _ _ _ _ _ _ _ _ _ Hres).
  destruct policies as [|p ps]; [congruence|].
  rewrite Hexec. destruct evaluation as [status ds msg].
  cbn [Evaluation.set_message Evaluation.status Evaluation.details].
  split; intros ->; reflexivity.
Qed.

Lemma evaluate_fail_raises_witness :
  evaluate (store_collaborators failing_taxonomy [])
    "http://fidesctl:8080" "demo_resources" (Some "A") [] "nightly run"
    false [] =
  (Raise EvaluationError,
   [ Echo Green ("Evaluating the following policies:" ++ nl ++ "A");
     Print "----------";
     Echo Green "Checking for missing resources...";
     Echo Green "Executing evaluations...";
     PrettyEcho
       (Evaluation.mk FAIL
          [ "Declaration (share_user_emails) of System (demo_marketing_system) failed Rule (reject_targeted_marketing) from Policy (A)" ]
          (Some "nightly run"))
       Red ]).
Proof.
  refine (proj1 (evaluate_fail_raises
                   (store_collaborators failing_taxonomy [])
                   "http://fidesctl:8080" "demo_resources" (Some "A") []
                   "nightly run" false [] [] [policy_A]
                   (Evaluation.mk FAIL
                      [ "Declaration (share_user_emails) of System (demo_marketing_system) failed Rule (reject_targeted_marketing) from Policy (A)" ]
                      None)
                   eq_refl _ eq_refl) eq_refl).
  discriminate.
Defined.

(** C9: an evaluation that [evaluate] returns has status PASS and the
    caller's message; it is the evaluation the rule evaluator produced for
    the resolved, non-empty policies, with the message set. *)
Theorem evaluate_returns_pass (c : Collaborators) (url : Url)
    (manifests_dir : string) (fides_key : option string) (headers : Headers)
    (message : string) (dry : bool) (tr tr' : list Event)
    (evaluation : Evaluation.t) :
  evaluate c url manifests_dir fides_key headers message dry tr =
    (Ok evaluation, tr') ->
  Evaluation.status evaluation = PASS /\
  Evaluation.message evaluation = Some message /\
  exists policies produced,
    policies <> [] /\
    fst (get_evaluation_policies c (Taxonomy.policy (parse c manifests_dir))
           fides_key url headers tr) = Ok policies /\
    execute_evaluation
      (evaluated_taxonomy c url manifests_dir headers policies)
      = Ok produced /\
    Evaluation.status produced = PASS /\
    evaluation = Evaluation.set_message produced message.
Proof.
  destruct (get_evaluation_policies_trace c
              (Taxonomy.policy (parse c manifests_dir)) fides_key url
              headers tr) as (policies & calls & Htrace & _).
  rewrite (evaluate_after_resolution _ _ _ _ _ _ _ _ _ _ Htrace).
  destruct policies as [|p ps]; [discriminate|].
  destruct (execute_evaluation _) as [[status ds msg]|e] eqn:Hexec;
    [|discriminate].
  cbn [Evaluation.set_message Evaluation.status Evaluation.details].
  destruct status; [discriminate|].
  intros H. injection H as <- _.
  split; [reflexivity|]. split; [reflexivity|].
  exists (p :: ps), (Evaluation.mk PASS ds msg).
  rewrite Htrace. repeat split; [discriminate | exact Hexec].
Qed.

Lemma evaluate_returns_pass_witness :
  evaluate (store_collaborators passing_taxonomy [])
    "http://fidesctl:8080" "demo_resources" (Some "B") [] "nightly run"
    true [] =
  (Ok (Evaluation.mk PASS [] (Some "nightly run")),
   [ Echo Green ("Evaluating the following policies:" ++ nl ++ "B");
     Print "----------";
     Echo Green "Checking for missing resources...";
     Echo Green "Executing evaluations...";
     Echo Green "Evaluation passed!" ]) /\
  Evaluation.status (Evaluation.mk PASS [] (Some "nightly run")) = PASS /\
  Evaluation.message (Evaluation.mk PASS [] (Some "nightly run"))
    = Some "nightly run".
Proof.
  split; [reflexivity|].
  destruct (evaluate_returns_pass
              (store_collaborators passing_taxonomy [])
              "http://fidesctl:8080" "demo_resources" (Some "B") []
              "nightly run" true [] _ _ eq_refl) as (Hs & Hm & _).
  split; [exact Hs | exact Hm].
Defined.

(** * Further properties *)

(** ** The comparator *)

Lemma compare_any_true (rule_types declaration_types : list FidesKey) :
  compare_rule_to_declaration rule_types declaration_types ANY = Ok true <->
  exists d, In d declaration_types /\ In d rule_types.
Proof.
  rewrite <- membership_any. unfold compare_rule_to_declaration. simpl.
  split; congruence.
Qed.

Lemma compare_all_true (rule_types declaration_types : list FidesKey) :
  compare_rule_to_declaration rule_types declaration_types ALL = Ok true <->
  forall d, In d declaration_types -> In d rule_types.
Proof.
  rewrite <- membership_all. unfold compare_rule_to_declaration. simpl.
  split; congruence.
Qed.

Lemma compare_none_true (rule_types declaration_types : list FidesKey) :
  compare_rule_to_declaration rule_types declaration_types NONE = Ok true <->
  ~ exists d, In d declaration_types /\ In d rule_types.
Proof.
  rewrite <- membership_any. unfold compare_rule_to_declaration. simpl.
  destruct (any _); simpl; split; congruence.
Qed.

(** Two comparisons that are true together are equal. *)
Lemma compare_eq_of_iff (r1 d1 r2 d2 : list FidesKey) (i1 i2 : InclusionEnum) :
  (compare_rule_to_declaration r1 d1 i1 = Ok true <->
   compare_rule_to_declaration r2 d2 i2 = Ok true) ->
  compare_rule_to_declaration r1 d1 i1 = compare_rule_to_declaration r2 d2 i2.
Proof.
  rewrite (compare_rule_to_declaration_total r1 d1 i1).
  rewrite (compare_rule_to_declaration_total r2 d2 i2).
  destruct (holds _), (holds _); intros [H1 H2]; try reflexivity.
  - symmetry. now apply H1.
  - now apply H2.
Qed.

(** X1: on a single declared value (as for a declaration's data_use) ANY
    and ALL agree: both say whether the value is among the rule values, and
    NONE says the opposite. *)
Theorem compare_rule_to_declaration_single (rule_types : list FidesKey)
    (declared : FidesKey) :
  compare_rule_to_declaration rule_types [declared] ANY
    = Ok (py_in declared rule_types) /\
  compare_rule_to_declaration rule_types [declared] ALL
    = Ok (py_in declared rule_types) /\
  compare_rule_to_declaration rule_types [declared] NONE
    = Ok (negb (py_in declared rule_types)).
Proof.
  unfold compare_rule_to_declaration. simpl.
  destruct (py_in declared rule_types); repeat split.
Qed.

(** X2: the comparison depends only on which values occur in the two lists,
    not on their order or on repetitions. *)
Theorem compare_rule_to_declaration_same_members
    (rule_types rule_types' declaration_types declaration_types'
       : list FidesKey)
    (rule_inclusion : InclusionEnum) :
  (forall x, In x rule_types <-> In x rule_types') ->
  (forall x, In x declaration_types <-> In x declaration_types') ->
  compare_rule_to_declaration rule_types declaration_types rule_inclusion =
  compare_rule_to_declaration rule_types' declaration_types' rule_inclusion.
Proof.
  intros Hr Hd. apply compare_eq_of_iff. destruct rule_inclusion.
  - rewrite !compare_any_true. split; intros (d & H1 & H2); exists d;
      split; (apply Hd || apply Hr); assumption.
  - rewrite !compare_all_true. split; intros H d Hin;
      apply Hr, H, Hd, Hin.
  - rewrite !compare_none_true.
    split; intros H (d & H1 & H2); apply H; exists d;
      split; (apply Hd || apply Hr); assumption.
Qed.

Lemma compare_rule_to_declaration_same_members_witness :
  compare_rule_to_declaration ["a"; "b"] ["b"; "c"; "b"] ALL =
  compare_rule_to_declaration ["b"; "a"; "a"] ["c"; "b"] ALL.
Proof.
  apply compare_rule_to_declaration_same_members.
  - intros x. simpl. tauto.
  - intros x. simpl. tauto.
Defined.

(** X3: more rule values can only turn an ANY or ALL comparison from false
    to true, and a NONE comparison from true to false. *)
Theorem compare_rule_to_declaration_monotone
    (rule_types rule_types' declaration_types : list FidesKey) :
  (forall x, In x rule_types -> In x rule_types') ->
  (compare_rule_to_declaration rule_types declaration_types ANY = Ok true ->
   compare_rule_to_declaration rule_types' declaration_types ANY = Ok true) /\
  (compare_rule_to_declaration rule_types declaration_types ALL = Ok true ->
   compare_rule_to_declaration rule_types' declaration_types ALL = Ok true) /\
  (compare_rule_to_declaration rule_types' declaration_types NONE = Ok true ->
   compare_rule_to_declaration rule_types declaration_types NONE = Ok true).
Proof.
  intros Hsub. rewrite !compare_any_true, !compare_all_true,
    !compare_none_true.
  split; [|split].
  - intros (d & H1 & H2). exists d. auto.
  - intros H d Hd. auto.
  - intros H (d & H1 & H2). apply H. exists d. auto.
Qed.

Lemma compare_rule_to_declaration_monotone_witness :
  compare_rule_to_declaration ["a"; "b"; "c"] ["b"; "a"] ALL = Ok true.
Proof.
  apply (proj1 (proj2 (compare_rule_to_declaration_monotone
                         ["a"; "b"] ["a"; "b"; "c"] ["b"; "a"]
                         ltac:(simpl; tauto)))).
  reflexivity.
Defined.

(** X4: when the declaration lists at least one value, a true ALL
    comparison makes the ANY comparison true and the NONE comparison
    false. *)
Theorem compare_rule_to_declaration_all_any
    (rule_types declaration_types : list FidesKey) :
  declaration_types <> [] ->
  compare_rule_to_declaration rule_types declaration_types ALL = Ok true ->
  compare_rule_to_declaration rule_types declaration_types ANY = Ok true /\
  compare_rule_to_declaration rule_types declaration_types NONE = Ok false.
Proof.
  intros Hne. rewrite compare_all_true. intros Hall.
  assert (Hany :
    compare_rule_to_declaration rule_types declaration_types ANY = Ok true).
  { apply compare_any_true. destruct declaration_types as [|d r];
      [congruence|]. exists d. split; [now left|]. apply Hall. now left. }
  split; [exact Hany|].
  unfold compare_rule_to_declaration in *. simpl in *.
  injection Hany as ->. reflexivity.
Qed.

Lemma compare_rule_to_declaration_all_any_witness :
  compare_rule_to_declaration ["a"; "b"] ["b"] ANY = Ok true /\
  compare_rule_to_declaration ["a"; "b"] ["b"] NONE = Ok false.
Proof.
  apply compare_rule_to_declaration_all_any.
  - discriminate.
  - reflexivity.
Defined.

(** ** The rule evaluator *)

Lemma quadruples_app (policies policies' : list Policy.t)
    (systems : list System.t) :
  quadruples (Taxonomy.mk (policies ++ policies') systems) =
  (quadruples (Taxonomy.mk policies systems) ++
   quadruples (Taxonomy.mk policies' systems))%list.
Proof. unfold quadruples. simpl. apply flat_map_app. Qed.

Lemma quadruples_length (taxonomy : Taxonomy.t) :
  List.length (quadruples taxonomy) =
  total_rules taxonomy * total_declarations taxonomy.
Proof.
  unfold quadruples, total_rules, total_declarations.
  destruct taxonomy as [policies systems]. simpl.
  set (D := List.length (flat_map System.privacy_declarations systems)).
  assert (Hsys : forall (policy : Policy.t) (rule : PolicyRule.t),
    List.length
      (flat_map (fun system =>
         map (fun declaration : PrivacyDeclaration.t =>
                (policy, rule, system, declaration))
           (System.privacy_declarations system)) systems) = D).
  { intros policy rule. subst D.
    induction systems as [|s r IH]; simpl; [reflexivity|].
    now rewrite !length_app, length_map, IH. }
  assert (Hrules : forall (policy : Policy.t) (rules : list PolicyRule.t),
    List.length
      (flat_map (fun rule =>
         flat_map (fun system =>
           map (fun declaration : PrivacyDeclaration.t =>
                  (policy, rule, system, declaration))
             (System.privacy_declarations system)) systems) rules)
    = List.length rules * D).
  { intros policy rules. induction rules as [|r rs IH]; simpl; [reflexivity|].
    now rewrite length_app, Hsys, IH. }
  unfold Quadruple.
  induction policies as [|p ps IH]; simpl; [reflexivity|].
  rewrite !length_app, Hrules. simpl in IH. rewrite IH. lia.
Qed.

Lemma filter_length_le {A} (p : A -> bool) (l : list A) :
  List.length (filter p l) <= List.length l.
Proof.
  induction l as [|a r IH]; simpl; [lia|]. destruct (p a); simpl; lia.
Qed.

Lemma violation_details_nonempty (taxonomy : Taxonomy.t) :
  violation_details taxonomy <> [] <->
  exists q, In q (quadruples taxonomy) /\ violation q = true.
Proof.
  unfold violation_details. split.
  - intros H. destruct (filter violation (quadruples taxonomy)) as [|q r] eqn:E;
      [now elim H|].
    exists q. apply filter_In. rewrite E. now left.
  - intros (q & Hq & Hv) E.
    assert (Hin : In q (filter violation (quadruples taxonomy)))
      by (apply filter_In; tauto).
    apply (in_map detail) in Hin. rewrite E in Hin. destruct Hin.
Qed.

(** X5: evaluating two lists of policies one after the other against the
    same systems records the details of the first list followed by the
    details of the second: policies are evaluated independently. *)
Theorem execute_evaluation_policies_app (policies policies' : list Policy.t)
    (systems : list System.t) :
  exists e1 e2 e : Evaluation.t,
    execute_evaluation (Taxonomy.mk policies systems) = Ok e1 /\
    execute_evaluation (Taxonomy.mk policies' systems) = Ok e2 /\
    execute_evaluation (Taxonomy.mk (policies ++ policies') systems) = Ok e /\
    Evaluation.details e =
      (Evaluation.details e1 ++ Evaluation.details e2)%list.
Proof.
  do 3 eexists. rewrite !execute_evaluation_eq.
  repeat split. cbn [Evaluation.details]. unfold violation_details.
  now rewrite quadruples_app, filter_app, map_app.
Qed.

(** X6: the number of recorded details is at most the number of rules times
    the number of declarations. *)
Theorem execute_evaluation_details_bound (taxonomy : Taxonomy.t) :
  exists evaluation : Evaluation.t,
    execute_evaluation taxonomy = Ok evaluation /\
    List.length (Evaluation.details evaluation) <=
      total_rules taxonomy * total_declarations taxonomy.
Proof.
  eexists. split; [apply execute_evaluation_eq|].
  cbn [Evaluation.details]. unfold violation_details.
  rewrite length_map, <- quadruples_length. apply filter_length_le.
Qed.

(** X7: a taxonomy without any rule, or without any declaration, passes with
    no details; in particular one without policies or without systems. *)
Theorem execute_evaluation_nothing_to_check (taxonomy : Taxonomy.t) :
  total_rules taxonomy = 0 \/ total_declarations taxonomy = 0 ->
  execute_evaluation taxonomy = Ok (Evaluation.mk PASS [] None).
Proof.
  intros H. rewrite execute_evaluation_eq. unfold violation_details.
  assert (E : quadruples taxonomy = []).
  { apply length_zero_iff_nil. rewrite quadruples_length.
    destruct H as [-> | ->]; lia. }
  now rewrite E.
Qed.

Lemma execute_evaluation_nothing_to_check_witness :
  execute_evaluation (Taxonomy.mk [policy_A; policy_B] []) =
  Ok (Evaluation.mk PASS [] None).
Proof.
  apply execute_evaluation_nothing_to_check. right. reflexivity.
Defined.

(** X8: if a taxonomy fails, it still fails after more policies and more
    systems are put around the ones it has. *)
Theorem execute_evaluation_fail_monotone
    (policies before after : list Policy.t)
    (systems before' after' : list System.t) (e : Evaluation.t) :
  execute_evaluation (Taxonomy.mk policies systems) = Ok e ->
  Evaluation.status e = FAIL ->
  exists e' : Evaluation.t,
    execute_evaluation
      (Taxonomy.mk (before ++ policies ++ after)
                   (before' ++ systems ++ after')) = Ok e' /\
    Evaluation.status e' = FAIL.
Proof.
  rewrite execute_evaluation_eq. intros He Hs. injection He as <-.
  cbn [Evaluation.status] in Hs.
  assert (Hne : violation_details (Taxonomy.mk policies systems) <> [])
    by (intros E; rewrite E in Hs; discriminate).
  apply violation_details_nonempty in Hne as ([[[p r] s] d] & Hq & Hv).
  apply quadruples_In in Hq as (Hp & Hr & Hsys & Hd).
  cbn [Taxonomy.policy Taxonomy.system] in Hp, Hsys.
  eexists. split; [apply execute_evaluation_eq|]. cbn [Evaluation.status].
  match goal with
  | |- match ?l with [] => _ | _ :: _ => _ end = _ =>
      assert (Hne' : l <> []); [|now destruct l]
  end.
  apply violation_details_nonempty. exists (p, r, s, d). split; [|exact Hv].
  apply quadruples_In. cbn [Taxonomy.policy Taxonomy.system].
  repeat split; try assumption.
  - apply in_or_app. right. apply in_or_app. now left.
  - apply in_or_app. right. apply in_or_app. now left.
Qed.

Lemma execute_evaluation_fail_monotone_witness :
  exists e' : Evaluation.t,
    execute_evaluation
      (Taxonomy.mk ([policy_B] ++ [policy_A] ++ [policy_C])
                   ([] ++ [sample_system] ++ [])) = Ok e' /\
    Evaluation.status e' = FAIL.
Proof.
  apply (execute_evaluation_fail_monotone [policy_A] [policy_B] [policy_C]
           [sample_system] [] []
           (Evaluation.mk FAIL
              [detail (policy_A, sample_rule, sample_system,
                       sample_declaration)] None)).
  - reflexivity.
  - reflexivity.
Defined.

Lemma compare_empty_any (rule_types : list FidesKey) :
  compare_rule_to_declaration rule_types [] ANY = Ok false.
Proof. reflexivity. Qed.

(** X9: when no declaration lists a data category and every rule compares
    categories with ANY, nothing is a violation: the taxonomy passes with no
    details, whatever the other dimensions say. *)
Theorem execute_evaluation_no_categories_any (taxonomy : Taxonomy.t) :
  (forall system declaration,
      In system (Taxonomy.system taxonomy) ->
      In declaration (System.privacy_declarations system) ->
      PrivacyDeclaration.data_categories declaration = []) ->
  (forall policy rule,
      In policy (Taxonomy.policy taxonomy) ->
      In rule (Policy.rules policy) ->
      PrivacyRule.inclusion (PolicyRule.data_categories rule) = ANY) ->
  execute_evaluation taxonomy = Ok (Evaluation.mk PASS [] None).
Proof.
  intros Hdecl Hrule. rewrite execute_evaluation_eq.
  unfold violation_details. rewrite filter_none; [reflexivity|].
  intros [[[p r] s] d] Hq. apply quadruples_In in Hq as (Hp & Hr & Hs & Hd).
  unfold violation, category_check.
  rewrite (Hdecl s d Hs Hd), (Hrule p r Hp Hr), compare_empty_any.
  reflexivity.
Qed.

Lemma execute_evaluation_no_categories_any_witness :
  execute_evaluation
    (Taxonomy.mk [policy_A]
       [System.mk "bare_system"
          [PrivacyDeclaration.mk "nothing_declared" [] "advertising"
             ["customer"] "identified_data"]]) =
  Ok (Evaluation.mk PASS [] None).
Proof.
  apply execute_evaluation_no_categories_any.
  - intros system declaration [<-|[]] [<-|[]]. reflexivity.
  - intros policy rule [<-|[]] [<-|[]]. reflexivity.
Defined.

(** X10: a declaration that lists no data category is flagged by a rule
    whose category inclusion is ALL or NONE as soon as use, subjects and
    qualifier match, whatever category values the rule names. *)
Theorem execute_evaluation_no_categories_flagged
    (policy_key : FidesKey) (rule : PolicyRule.t) (system_key : FidesKey)
    (declaration : PrivacyDeclaration.t) :
  let policy := Policy.mk policy_key [rule] in
  let system := System.mk system_key [declaration] in
  PrivacyDeclaration.data_categories declaration = [] ->
  PrivacyRule.inclusion (PolicyRule.data_categories rule) <> ANY ->
  compare_rule_to_declaration
    (PrivacyRule.values (PolicyRule.data_uses rule))
    [PrivacyDeclaration.data_use declaration]
    (PrivacyRule.inclusion (PolicyRule.data_uses rule)) = Ok true ->
  compare_rule_to_declaration
    (PrivacyRule.values (PolicyRule.data_subjects rule))
    (PrivacyDeclaration.data_subjects declaration)
    (PrivacyRule.inclusion (PolicyRule.data_subjects rule)) = Ok true ->
  PrivacyDeclaration.data_qualifier declaration =
    PolicyRule.data_qualifier rule ->
  execute_evaluation (Taxonomy.mk [policy] [system]) =
    Ok (Evaluation.mk FAIL
          [detail (policy, rule, system, declaration)] None).
Proof.
  intros policy system Hcat Hincl Huse Hsubj Hqual.
  rewrite execute_evaluation_eq. unfold violation_details.
  change (quadruples (Taxonomy.mk [policy] [system]))
    with [(policy, rule, system, declaration)].
  assert (Hv : violation (policy, rule, system, declaration) = true).
  { apply violation_iff. repeat split; try assumption.
    rewrite Hcat.
    destruct (PrivacyRule.inclusion (PolicyRule.data_categories rule));
      [congruence | reflexivity | reflexivity]. }
  cbn [filter]. now rewrite Hv.
Qed.

Lemma execute_evaluation_no_categories_flagged_witness :
  execute_evaluation
    (Taxonomy.mk
       [Policy.mk "strict"
          [PolicyRule.mk "no_contact_data"
             (PrivacyRule.mk ["user.provided.identifiable.contact"] NONE)
             (PrivacyRule.mk ["advertising"] ANY)
             (PrivacyRule.mk ["customer"] ANY)
             "identified_data"]]
       [System.mk "bare_system"
          [PrivacyDeclaration.mk "nothing_declared" [] "advertising"
             ["customer"] "identified_data"]]) =
  Ok (Evaluation.mk FAIL
        [ "Declaration (nothing_declared) of System (bare_system) failed Rule (no_contact_data) from Policy (strict)" ]
        None).
Proof.
  apply (execute_evaluation_no_categories_flagged "strict"
           (PolicyRule.mk "no_contact_data"
              (PrivacyRule.mk ["user.provided.identifiable.contact"] NONE)
              (PrivacyRule.mk ["advertising"] ANY)
              (PrivacyRule.mk ["customer"] ANY)
              "identified_data")
           "bare_system"
           (PrivacyDeclaration.mk "nothing_declared" [] "advertising"
              ["customer"] "identified_data"));
    try reflexivity.
  discriminate.
Defined.

(** ** The policy resolver *)

(** X11: [get_all_server_policies] lists the server's policies once and
    fetches, in the order listed, exactly the keys that are not excluded;
    leaving [exclude] out and passing an empty list are the same. *)
Theorem get_all_server_policies_excludes (c : Collaborators) (url : Url)
    (headers : Headers) (exclude : option (list FidesKey))
    (tr : list Event) :
  let excluded := match exclude with Some l => l | None => [] end in
  let keys :=
    filter (fun key => negb (py_in key excluded))
           (api_ls c url "policy" headers) in
  get_all_server_policies c url headers exclude tr =
    (Ok (get_server_resources c url "policy" headers keys),
     (tr ++ [ApiLs "policy"; ApiGetMany "policy" keys])%list) /\
  (forall key, In key keys <->
               In key (api_ls c url "policy" headers) /\ ~ In key excluded) /\
  get_all_server_policies c url headers None tr =
    get_all_server_policies c url headers (Some []) tr.
Proof.
  intros excluded keys. split; [|split].
  - unfold get_all_server_policies, call_api_ls, call_get_server_resources,
      bind, emit, ret. subst keys excluded.
    destruct exclude as [[|k l]|]; cbv beta iota; rewrite <- app_assoc;
      reflexivity.
  - intros key. subst keys. rewrite filter_In, negb_true_iff.
    rewrite <- not_true_iff_false, py_in_In. tauto.
  - reflexivity.
Qed.

(** ** The orchestrator *)

Lemma find_key_none (local_policies : list Policy.t) (key : FidesKey) :
  (forall policy, In policy local_policies ->
                  Policy.fides_key policy <> key) ->
  find (fun policy => String.eqb (Policy.fides_key policy) key)
       local_policies = None.
Proof.
  intros H. destruct (find _ local_policies) as [found|] eqn:F;
    [|reflexivity].
  apply find_some in F as [Hin Hk]. apply String.eqb_eq in Hk.
  now elim (H found Hin).
Qed.

Lemma evaluate_result (c : Collaborators) (url : Url)
    (manifests_dir : string) (fides_key : option string) (headers : Headers)
    (message : string) (dry : bool) (tr tr1 : list Event)
    (policies : list Policy.t) :
  get_evaluation_policies c (Taxonomy.policy (parse c manifests_dir))
    fides_key url headers tr = (Ok policies, tr1) ->
  fst (evaluate c url manifests_dir fides_key headers message dry tr) =
  match policies with
  | [] => Raise EvaluationError
  | _ :: _ =>
      verdict message
        (execute_evaluation
           (evaluated_taxonomy c url manifests_dir headers policies))
  end.
Proof.
  intros Hres. rewrite (evaluate_after_resolution _ _ _ _ _ _ _ _ _ _ Hres).
  destruct policies as [|p ps]; [reflexivity|].
  unfold verdict. destruct (execute_evaluation _) as [[[] ds msg]|e];
    reflexivity.
Qed.

(** X12: a run for a target key that no local policy has and that the
    server does not know asks the server once for that key, prints that the
    policy could not be found, and raises EvaluationError. *)
Theorem evaluate_policy_not_found (c : Collaborators) (url : Url)
    (manifests_dir : string) (key : FidesKey) (headers : Headers)
    (message : string) (dry : bool) (tr : list Event) :
  key <> "" ->
  (forall policy, In policy (Taxonomy.policy (parse c manifests_dir)) ->
                  Policy.fides_key policy <> key) ->
  get_server_resource c url "policy" key headers = None ->
  evaluate c url manifests_dir (Some key) headers message dry tr =
    (Raise EvaluationError,
     (tr ++ [ ApiGet "policy" key;
              Echo Red ("Policy " ++ key ++ " could not be found") ])%list).
Proof.
  intros Hkey Hlocal Hserver.
  assert (Hres :
    get_evaluation_policies c (Taxonomy.policy (parse c manifests_dir))
      (Some key) url headers tr = (Ok [], (tr ++ [ApiGet "policy" key])%list)).
  { unfold get_evaluation_policies. destruct key as [|ch k]; [congruence|].
    rewrite (find_key_none _ _ Hlocal).
    unfold bind, call_get_server_resource, emit, ret. cbv beta iota.
    now rewrite Hserver. }
  rewrite (evaluate_after_resolution _ _ _ _ _ _ _ _ _ _ Hres).
  rewrite <- app_assoc. destruct key; [congruence | reflexivity].
Qed.

Lemma evaluate_policy_not_found_witness :
  evaluate (store_collaborators passing_taxonomy [policy_C])
    "http://fidesctl:8080" "demo_resources" (Some "A") [] "nightly run"
    false [] =
  (Raise EvaluationError,
   [ApiGet "policy" "A"; Echo Red "Policy A could not be found"]).
Proof.
  apply (evaluate_policy_not_found
           (store_collaborators passing_taxonomy [policy_C])
           "http://fidesctl:8080" "demo_resources" "A" [] "nightly run"
           false []).
  - discriminate.
  - intros policy [<-|[]]. discriminate.
  - reflexivity.
Defined.

(** X13: [dry] changes neither what [evaluate] returns or raises nor the
    calls to the server: a run that raises has the same trace either way,
    and a run that passes differs by the one message about sending the
    results. *)
Theorem evaluate_dry_only_prints (c : Collaborators) (url : Url)
    (manifests_dir : string) (fides_key : option string) (headers : Headers)
    (message : string) (tr : list Event) :
  let wet := evaluate c url manifests_dir fides_key headers message false tr in
  let dried := evaluate c url manifests_dir fides_key headers message true tr in
  fst wet = fst dried /\
  match fst wet with
  | Raise _ => snd wet = snd dried
  | Ok _ =>
      exists shown,
        snd dried = (shown ++ [Echo Green "Evaluation passed!"])%list /\
        snd wet =
          (shown ++
           [ Echo Green "Sending the evaluation results to the server...";
             Echo Green "Evaluation passed!" ])%list
  end.
Proof.
  intros wet dried. subst wet dried.
  destruct (get_evaluation_policies_trace c
              (Taxonomy.policy (parse c manifests_dir)) fides_key url
              headers tr) as (policies & calls & Hres & _).
  rewrite !(evaluate_after_resolution _ _ _ _ _ _ _ _ _ _ Hres).
  destruct policies as [|p ps]; [split; reflexivity|].
  destruct (execute_evaluation _) as [[[] ds msg]|e];
    cbn [Evaluation.set_message Evaluation.status fst snd];
    (split; [reflexivity|]); try reflexivity.
  exists ((tr ++ calls) ++ progress_events c manifests_dir (p :: ps))%list.
  unfold success_events. cbn [app].
  split; apply app_assoc.
Qed.


(** X15: [evaluate] returns an evaluation exactly when the resolver found
    at least one policy and no quadruple of the taxonomy handed to the rule
    evaluator is a violation. *)
Theorem evaluate_returns_iff (c : Collaborators) (url : Url)
    (manifests_dir : string) (fides_key : option string) (headers : Headers)
    (message : string) (dry : bool) (tr : list Event) :
  (exists evaluation,
      fst (evaluate c url manifests_dir fides_key headers message dry tr)
        = Ok evaluation) <->
  (exists policies,
      fst (get_evaluation_policies c
             (Taxonomy.policy (parse c manifests_dir)) fides_key url
             headers tr) = Ok policies /\
      policies <> [] /\
      forall q,
        In q (quadruples
                (evaluated_taxonomy c url manifests_dir headers policies)) ->
        violation q = false).
Proof.
  destruct (get_evaluation_policies_trace c
              (Taxonomy.policy (parse c manifests_dir)) fides_key url
              headers tr) as (policies & calls & Hres & _).
  rewrite (evaluate_result _ _ _ _ _ _ _ _ _ _ Hres), Hres. cbn [fst].
  split.
  - intros (evaluation & He). exists policies.
    destruct policies as [|p ps]; [discriminate|].
    split; [reflexivity|]. split; [discriminate|].
    rewrite execute_evaluation_eq in He. unfold verdict in He.
    cbn [Evaluation.status] in He.
    destruct (violation_details _) eqn:E; [|discriminate].
    intros q Hq. destruct (violation q) eqn:Hv; [|reflexivity].
    exfalso. eapply violation_details_nonempty; [|exact E].
    exists q. tauto.
  - intros (policies' & Hp & Hne & Hnone). injection Hp as <-.
    destruct policies as [|p ps]; [congruence|].
    rewrite execute_evaluation_eq. unfold violation_details.
    rewrite filter_none by exact Hnone. eexists. reflexivity.
Qed.

(** X16: an evaluation that [evaluate] returns has no details. *)
Theorem evaluate_returns_no_details (c : Collaborators) (url : Url)
    (manifests_dir : string) (fides_key : option string) (headers : Headers)
    (message : string) (dry : bool) (tr : list Event)
    (evaluation : Evaluation.t) :
  fst (evaluate c url manifests_dir fides_key headers message dry tr)
    = Ok evaluation ->
  Evaluation.details evaluation = [].
Proof.
  destruct (get_evaluation_policies_trace c
              (Taxonomy.policy (parse c manifests_dir)) fides_key url
              headers tr) as (policies & calls & Hres & _).
  rewrite (evaluate_result _ _ _ _ _ _ _ _ _ _ Hres).
  destruct policies as [|p ps]; [discriminate|].
  rewrite execute_evaluation_eq. unfold verdict. cbn [Evaluation.status].
  destruct (violation_details _) eqn:E; [|discriminate].
  intros H. injection H as <-. reflexivity.
Qed.

Lemma evaluate_returns_no_details_witness :
  Evaluation.details (Evaluation.mk PASS [] (Some "nightly run")) = [].
Proof.
  apply (evaluate_returns_no_details
           (store_collaborators passing_taxonomy [])
           "http://fidesctl:8080" "demo_resources" (Some "B") []
           "nightly run" true []).
  reflexivity.
Defined.

(** X17: a run for a target key that a local policy has, with no reference
    missing, makes no call to the server, and its outcome is that of the
    rule evaluator on that one policy and the parsed systems: the other
    local policies play no part. *)
Theorem evaluate_local_key_offline (c : Collaborators) (url : Url)
    (manifests_dir : string) (key : FidesKey) (headers : Headers)
    (message : string) (dry : bool) (tr : list Event) (found : Policy.t) :
  key <> "" ->
  find (fun policy => String.eqb (Policy.fides_key policy) key)
       (Taxonomy.policy (parse c manifests_dir)) = Some found ->
  get_referenced_missing_keys c
    (Taxonomy.set_policy (parse c manifests_dir) [found]) = [] ->
  fst (evaluate c url manifests_dir (Some key) headers message dry tr) =
    verdict message
      (execute_evaluation
         (Taxonomy.mk [found] (Taxonomy.system (parse c manifests_dir)))) /\
  exists shown,
    snd (evaluate c url manifests_dir (Some key) headers message dry tr) =
      (tr ++ shown)%list /\
    forallb (fun ev => negb (is_api_call ev)) shown = true.
Proof.
  intros Hkey Hfind Hmissing.
  assert (Hres :
    get_evaluation_policies c (Taxonomy.policy (parse c manifests_dir))
      (Some key) url headers tr = (Ok [found], tr)).
  { unfold get_evaluation_policies. destruct key as [|ch k]; [congruence|].
    now rewrite Hfind. }
  rewrite (evaluate_after_resolution _ _ _ _ _ _ _ _ _ _ Hres).
  unfold evaluated_taxonomy, progress_events. rewrite Hmissing.
  unfold Taxonomy.set_policy, verdict.
  destruct (execute_evaluation _) as [[[] ds msg]|e];
    cbn [Evaluation.set_message Evaluation.status fst snd];
    (split; [reflexivity|]); eexists; (split; [reflexivity|]);
    try destruct dry; reflexivity.
Qed.

Lemma evaluate_local_key_offline_witness :
  fst (evaluate
         (store_collaborators
            (Taxonomy.mk [policy_A; policy_B] [sample_system])
            [server_policy_B])
         "http://fidesctl:8080" "demo_resources" (Some "B") []
         "nightly run" false []) =
  Ok (Evaluation.mk PASS [] (Some "nightly run")).
Proof.
  refine (proj1 (evaluate_local_key_offline
                   (store_collaborators
                      (Taxonomy.mk [policy_A; policy_B] [sample_system])
                      [server_policy_B])
                   "http://fidesctl:8080" "demo_resources" "B" []
                   "nightly run" false [] policy_B _ eq_refl eq_refl)).
  discriminate.
Defined.

(** ** The schema migration *)

Lemma has_column_app (columns columns' : Migration.Table)
    (column_name : string) :
  Migration.has_column (columns ++ columns')%list column_name =
  Migration.has_column columns column_name ||
  Migration.has_column columns' column_name.
Proof. unfold Migration.has_column. apply existsb_app. Qed.

Lemma has_column_filter (columns : Migration.Table) (n m : string) :
  Migration.has_column
    (filter (fun column => negb (String.eqb (Migration.name column) m))
            columns) n =
  Migration.has_column columns n && negb (String.eqb n m).
Proof.
  unfold Migration.has_column.
  induction columns as [|col r IH]; simpl; [reflexivity|].
  destruct (String.eqb_spec (Migration.name col) m) as [E|E];
    destruct (String.eqb_spec (Migration.name col) n) as [E'|E'];
    simpl; rewrite ?IH.
  - subst n. rewrite E, String.eqb_refl. simpl. apply andb_false_r.
  - destruct (String.eqb_spec (Migration.name col) n); [contradiction|].
    reflexivity.
  - destruct (String.eqb_spec (Migration.name col) n); [|contradiction].
    simpl. destruct (String.eqb_spec n m); [congruence | reflexivity].
  - destruct (String.eqb_spec (Migration.name col) n); [contradiction|].
    reflexivity.
Qed.

Lemma filter_absent (columns : Migration.Table) (column_name : string) :
  Migration.has_column columns column_name = false ->
  filter (fun column =>
            negb (String.eqb (Migration.name column) column_name)) columns
  = columns.
Proof.
  unfold Migration.has_column.
  induction columns as [|col r IH]; simpl; [reflexivity|].
  intros H. apply orb_false_iff in H as [H1 H2].
  rewrite H1. simpl. now rewrite IH.
Qed.

Lemma add_column_inr (table_name : string) (column : Migration.Column)
    (schema schema' : Migration.Schema) :
  Migration.add_column table_name column schema = inr schema' ->
  exists columns,
    schema table_name = Some columns /\
    Migration.has_column columns (Migration.name column) = false /\
    schema' =
      Migration.set_table schema table_name (columns ++ [column])%list.
Proof.
  unfold Migration.add_column.
  destruct (schema table_name) as [columns|]; [|discriminate].
  destruct (Migration.has_column columns _) eqn:H; [discriminate|].
  intros E. injection E as <-. now exists columns.
Qed.

Lemma drop_column_inr (table_name column_name : string)
    (schema schema' : Migration.Schema) :
  Migration.drop_column table_name column_name schema = inr schema' ->
  exists columns,
    schema table_name = Some columns /\
    Migration.has_column columns column_name = true /\
    schema' =
      Migration.set_table schema table_name
        (filter (fun column =>
                   negb (String.eqb (Migration.name column) column_name))
                columns).
Proof.
  unfold Migration.drop_column.
  destruct (schema table_name) as [columns|]; [|discriminate].
  destruct (Migration.has_column columns _) eqn:H; [|discriminate].
  intros E. injection E as <-. now exists columns.
Qed.

Lemma and_then_inr (r : Migration.DbError + Migration.Schema)
    (op : Migration.Schema -> Migration.DbError + Migration.Schema)
    (schema' : Migration.Schema) :
  Migration.and_then r op = inr schema' ->
  exists schema1, r = inr schema1 /\ op schema1 = inr schema'.
Proof.
  destruct r as [e|schema1]; simpl; [discriminate|].
  intros H. now exists schema1.
Qed.

Lemma set_table_other (schema : Migration.Schema) (table_name t : string)
    (columns : Migration.Table) :
  t <> table_name ->
  Migration.set_table schema table_name columns t = schema t.
Proof.
  intros H. unfold Migration.set_table.
  now destruct (String.eqb_spec t table_name).
Qed.

(** What a successful upgrade found and what it left. *)
Lemma upgrade_inr (schema schema' : Migration.Schema) :
  Migration.upgrade schema = inr schema' ->
  exists data_uses evaluations,
    schema "data_uses" = Some data_uses /\
    schema "evaluations" = Some evaluations /\
    Migration.has_column data_uses "legal_basis" = false /\
    Migration.has_column data_uses "purpose_of_processing" = false /\
    Migration.has_column data_uses "recipient" = false /\
    Migration.has_column evaluations "updated_at" = true /\
    Migration.has_column evaluations "created_at" = true /\
    schema' "data_uses" =
      Some (data_uses ++
            [Migration.legal_basis; Migration.purpose_of_processing;
             Migration.recipient])%list /\
    schema' "evaluations" =
      Some (filter (fun column =>
                      negb (String.eqb (Migration.name column) "created_at"))
              (filter (fun column =>
                         negb (String.eqb (Migration.name column)
                                 "updated_at"))
                 evaluations)) /\
    forall t, t <> "data_uses" -> t <> "evaluations" ->
              schema' t = schema t.
Proof.
  unfold Migration.upgrade. intros H.
  apply and_then_inr in H as (s4 & H & H5).
  apply and_then_inr in H as (s3 & H & H4).
  apply and_then_inr in H as (s2 & H & H3).
  apply and_then_inr in H as (s1 & H1 & H2).
  apply add_column_inr in H1 as (du & Hdu & Hlb & ->).
  apply add_column_inr in H2 as (du2 & Hdu2 & Hpp & ->).
  apply add_column_inr in H3 as (du3 & Hdu3 & Hrc & ->).
  apply drop_column_inr in H4 as (ev & Hev & Hup & ->).
  apply drop_column_inr in H5 as (ev2 & Hev2 & Hcr & ->).
  cbv [Migration.set_table] in Hdu2, Hdu3, Hev, Hev2. simpl in *.
  injection Hdu2 as <-. injection Hdu3 as <-. injection Hev2 as <-.
  rewrite has_column_app in Hpp, Hrc. rewrite has_column_app in Hrc.
  rewrite has_column_filter in Hcr. simpl in *.
  rewrite !orb_false_r in *. rewrite andb_true_r in Hcr.
  exists du, ev. repeat split; try assumption.
  - cbv [Migration.set_table]. simpl. now rewrite <- !app_assoc.
  - intros t Ht1 Ht2. now rewrite !set_table_other by assumption.
Qed.

Lemma add_column_ok (table_name : string) (column : Migration.Column)
    (schema : Migration.Schema) (columns : Migration.Table) :
  schema table_name = Some columns ->
  Migration.has_column columns (Migration.name column) = false ->
  Migration.add_column table_name column schema =
    inr (Migration.set_table schema table_name (columns ++ [column])%list).
Proof.
  intros H1 H2. unfold Migration.add_column. now rewrite H1, H2.
Qed.

Lemma drop_column_ok (table_name column_name : string)
    (schema : Migration.Schema) (columns : Migration.Table) :
  schema table_name = Some columns ->
  Migration.has_column columns column_name = true ->
  Migration.drop_column table_name column_name schema =
    inr (Migration.set_table schema table_name
           (filter (fun column =>
                      negb (String.eqb (Migration.name column) column_name))
                   columns)).
Proof.
  intros H1 H2. unfold Migration.drop_column. now rewrite H1, H2.
Qed.

Ltac column_side H :=
  rewrite ?has_column_app, ?has_column_filter;
  cbn [Migration.name Migration.legal_basis Migration.purpose_of_processing
       Migration.recipient Migration.created_at Migration.updated_at];
  rewrite H; reflexivity.

Lemma upgrade_ok (schema : Migration.Schema)
    (data_uses evaluations : Migration.Table) :
  schema "data_uses" = Some data_uses ->
  schema "evaluations" = Some evaluations ->
  Migration.has_column data_uses "legal_basis" = false ->
  Migration.has_column data_uses "purpose_of_processing" = false ->
  Migration.has_column data_uses "recipient" = false ->
  Migration.has_column evaluations "updated_at" = true ->
  Migration.has_column evaluations "created_at" = true ->
  exists schema', Migration.upgrade schema = inr schema'.
Proof.
  intros Hdu Hev Hlb Hpp Hrc Hup Hcr. unfold Migration.upgrade.
  rewrite (add_column_ok "data_uses" Migration.legal_basis _ _ Hdu Hlb).
  cbn [Migration.and_then].
  erewrite add_column_ok;
    [|reflexivity | column_side Hpp].
  cbn [Migration.and_then].
  erewrite add_column_ok;
    [|reflexivity | column_side Hrc].
  cbn [Migration.and_then].
  erewrite drop_column_ok; [|exact Hev | exact Hup].
  cbn [Migration.and_then].
  erewrite drop_column_ok;
    [|reflexivity | column_side Hcr].
  eexists. reflexivity.
Qed.

(** What a successful downgrade found and what it left. *)
Lemma downgrade_inr (schema schema' : Migration.Schema) :
  Migration.downgrade schema = inr schema' ->
  exists data_uses evaluations,
    schema "data_uses" = Some data_uses /\
    schema "evaluations" = Some evaluations /\
    Migration.has_column evaluations "created_at" = false /\
    Migration.has_column evaluations "updated_at" = false /\
    Migration.has_column data_uses "recipient" = true /\
    Migration.has_column data_uses "purpose_of_processing" = true /\
    Migration.has_column data_uses "legal_basis" = true /\
    schema' "evaluations" =
      Some (evaluations ++
            [Migration.created_at; Migration.updated_at])%list /\
    schema' "data_uses" =
      Some (filter (fun column =>
                      negb (String.eqb (Migration.name column) "legal_basis"))
              (filter (fun column =>
                         negb (String.eqb (Migration.name column)
                                 "purpose_of_processing"))
                 (filter (fun column =>
                            negb (String.eqb (Migration.name column)
                                    "recipient"))
                    data_uses))) /\
    forall t, t <> "data_uses" -> t <> "evaluations" ->
              schema' t = schema t.
Proof.
  unfold Migration.downgrade. intros H.
  apply and_then_inr in H as (s4 & H & H5).
  apply and_then_inr in H as (s3 & H & H4).
  apply and_then_inr in H as (s2 & H & H3).
  apply and_then_inr in H as (s1 & H1 & H2).
  apply add_column_inr in H1 as (ev & Hev & Hcr & ->).
  apply add_column_inr in H2 as (ev2 & Hev2 & Hup & ->).
  apply drop_column_inr in H3 as (du & Hdu & Hrc & ->).
  apply drop_column_inr in H4 as (du2 & Hdu2 & Hpp & ->).
  apply drop_column_inr in H5 as (du3 & Hdu3 & Hlb & ->).
  cbv [Migration.set_table] in Hev2, Hdu, Hdu2, Hdu3. simpl in *.
  injection Hev2 as <-. injection Hdu2 as <-. injection Hdu3 as <-.
  rewrite has_column_app in Hup.
  rewrite has_column_filter in Hpp. rewrite !has_column_filter in Hlb.
  simpl in *. rewrite orb_false_r in Hup.
  rewrite andb_true_r in Hpp. rewrite !andb_true_r in Hlb.
  exists du, ev. repeat split; try assumption.
  - cbv [Migration.set_table]. simpl. now rewrite <- !app_assoc.
  - intros t Ht1 Ht2. now rewrite !set_table_other by assumption.
Qed.

Lemma downgrade_ok (schema : Migration.Schema)
    (data_uses evaluations : Migration.Table) :
  schema "data_uses" = Some data_uses ->
  schema "evaluations" = Some evaluations ->
  Migration.has_column evaluations "created_at" = false ->
  Migration.has_column evaluations "updated_at" = false ->
  Migration.has_column data_uses "recipient" = true ->
  Migration.has_column data_uses "purpose_of_processing" = true ->
  Migration.has_column data_uses "legal_basis" = true ->
  exists schema', Migration.downgrade schema = inr schema'.
Proof.
  intros Hdu Hev Hcr Hup Hrc Hpp Hlb. unfold Migration.downgrade.
  rewrite (add_column_ok "evaluations" Migration.created_at _ _ Hev Hcr).
  cbn [Migration.and_then].
  erewrite add_column_ok;
    [|reflexivity | column_side Hup].
  cbn [Migration.and_then].
  erewrite drop_column_ok; [|exact Hdu | exact Hrc].
  cbn [Migration.and_then].
  erewrite drop_column_ok;
    [|reflexivity | column_side Hpp].
  cbn [Migration.and_then].
  erewrite drop_column_ok;
    [|reflexivity | column_side Hlb].
  eexists. reflexivity.
Qed.


(** X19: after a successful upgrade the downgrade goes through; it gives
    back the table data_uses as it was and leaves every table other than
    evaluations as it was; evaluations keeps its other columns in order and
    gets created_at and updated_at back as its last two columns, as
    nullable timestamps with time zone that default to now(). *)
Theorem migration_upgrade_downgrade (schema schema' : Migration.Schema) :
  Migration.upgrade schema = inr schema' ->
  exists schema'' evaluations,
    Migration.downgrade schema' = inr schema'' /\
    schema'' "data_uses" = schema "data_uses" /\
    schema "evaluations" = Some evaluations /\
    schema'' "evaluations" =
      Some (filter (fun column =>
                      negb (String.eqb (Migration.name column) "created_at"))
              (filter (fun column =>
                         negb (String.eqb (Migration.name column)
                                 "updated_at"))
                 evaluations) ++
            [Migration.created_at; Migration.updated_at])%list /\
    forall t, t <> "evaluations" -> schema'' t = schema t.
Proof.
  intros Hup.
  apply upgrade_inr in Hup
    as (du & ev & Hdu & Hev & Hlb & Hpp & Hrc & Hu & Hc & Hdu' & Hev' & Hoth).
  destruct (downgrade_ok schema' _ _ Hdu' Hev') as (schema'' & Hdown).
  - rewrite !has_column_filter. simpl. now rewrite andb_false_r.
  - rewrite !has_column_filter. simpl. now rewrite andb_false_r.
  - rewrite has_column_app. simpl. apply orb_true_r.
  - rewrite has_column_app. simpl. apply orb_true_r.
  - rewrite has_column_app. simpl. apply orb_true_r.
  - exists schema'', ev. split; [exact Hdown|].
    apply downgrade_inr in Hdown
      as (du2 & ev2 & Hdu2 & Hev2 & _ & _ & _ & _ & _ & Hev'' & Hdu'' & Hoth').
    rewrite Hdu' in Hdu2. injection Hdu2 as <-.
    rewrite Hev' in Hev2. injection Hev2 as <-.
    assert (Hback : schema'' "data_uses" = schema "data_uses").
    { rewrite Hdu'', Hdu. f_equal.
      rewrite filter_app, (filter_absent du "recipient" Hrc). simpl.
      rewrite filter_app, (filter_absent du "purpose_of_processing" Hpp).
      simpl.
      rewrite filter_app, (filter_absent du "legal_basis" Hlb). simpl.
      now rewrite app_nil_r. }
    split; [exact Hback|]. split; [exact Hev|]. split; [exact Hev''|].
    intros t Ht. destruct (String.eqb_spec t "data_uses") as [->|Hne].
    + exact Hback.
    + rewrite Hoth' by assumption. now apply Hoth.
Qed.

Lemma migration_upgrade_downgrade_witness :
  exists schema'',
    Migration.and_then (Migration.upgrade Migration.sample_schema)
      Migration.downgrade = inr schema'' /\
    schema'' "data_uses" = Migration.sample_schema "data_uses" /\
    schema'' "systems" = Migration.sample_schema "systems".
Proof.
  assert (H : exists schema',
             Migration.upgrade Migration.sample_schema = inr schema')
    by (eexists; reflexivity).
  destruct H as (schema' & H).
  destruct (migration_upgrade_downgrade Migration.sample_schema schema' H)
    as (schema'' & ev & Hdown & Hdu & _ & _ & Hoth).
  exists schema''. rewrite H. cbn [Migration.and_then].
  split; [exact Hdown|]. split; [exact Hdu|]. apply Hoth. discriminate.
Defined.

(** X20: after a successful downgrade the upgrade goes through; it gives
    back the table evaluations as it was and leaves every table other than
    data_uses as it was; data_uses keeps its other columns in order and gets
    legal_basis, purpose_of_processing and recipient back as its last three
    columns, as nullable text. *)
Theorem migration_downgrade_upgrade (schema schema' : Migration.Schema) :
  Migration.downgrade schema = inr schema' ->
  exists schema'' data_uses,
    Migration.upgrade schema' = inr schema'' /\
    schema'' "evaluations" = schema "evaluations" /\
    schema "data_uses" = Some data_uses /\
    schema'' "data_uses" =
      Some (filter (fun column =>
                      negb (String.eqb (Migration.name column) "legal_basis"))
              (filter (fun column =>
                         negb (String.eqb (Migration.name column)
                                 "purpose_of_processing"))
                 (filter (fun column =>
                            negb (String.eqb (Migration.name column)
                                    "recipient"))
                    data_uses)) ++
            [Migration.legal_basis; Migration.purpose_of_processing;
             Migration.recipient])%list /\
    forall t, t <> "data_uses" -> schema'' t = schema t.
Proof.
  intros Hdown.
  apply downgrade_inr in Hdown
    as (du & ev & Hdu & Hev & Hcr & Hu & _ & _ & _ & Hev' & Hdu' & Hoth).
  destruct (upgrade_ok schema' _ _ Hdu' Hev') as (schema'' & Hup).
  - rewrite !has_column_filter. simpl. now rewrite andb_false_r.
  - rewrite !has_column_filter. simpl. now rewrite !andb_false_r.
  - rewrite !has_column_filter. simpl. now rewrite !andb_false_r.
  - rewrite has_column_app. simpl. apply orb_true_r.
  - rewrite has_column_app. simpl. apply orb_true_r.
  - exists schema'', du. split; [exact Hup|].
    apply upgrade_inr in Hup
      as (du2 & ev2 & Hdu2 & Hev2 & _ & _ & _ & _ & _ & Hdu'' & Hev'' & Hoth').
    rewrite Hdu' in Hdu2. injection Hdu2 as <-.
    rewrite Hev' in Hev2. injection Hev2 as <-.
    assert (Hback : schema'' "evaluations" = schema "evaluations").
    { rewrite Hev'', Hev. f_equal.
      rewrite filter_app, (filter_absent ev "updated_at" Hu). simpl.
      rewrite filter_app, (filter_absent ev "created_at" Hcr). simpl.
      now rewrite app_nil_r. }
    split; [exact Hback|]. split; [exact Hdu|]. split; [exact Hdu''|].
    intros t Ht. destruct (String.eqb_spec t "evaluations") as [->|Hne].
    + exact Hback.
    + rewrite Hoth' by assumption. now apply Hoth.
Qed.

Lemma migration_downgrade_upgrade_witness :
  exists schema'',
    Migration.and_then (Migration.downgrade Migration.sample_schema_upgraded)
      Migration.upgrade = inr schema'' /\
    schema'' "evaluations" = Migration.sample_schema_upgraded "evaluations" /\
    schema'' "systems" = Migration.sample_schema_upgraded "systems".
Proof.
  assert (H : exists schema',
             Migration.downgrade Migration.sample_schema_upgraded
               = inr schema')
    by (eexists; reflexivity).
  destruct H as (schema' & H).
  destruct (migration_downgrade_upgrade Migration.sample_schema_upgraded
              schema' H)
    as (schema'' & du & Hup & Hev & _ & _ & Hoth).
  exists schema''. rewrite H. cbn [Migration.and_then].
  split; [exact Hup|]. split; [exact Hev|]. apply Hoth. discriminate.
Defined.
